(** * transitfeed/pathway.py: the Pathway record and its validators

    A shallow embedding of [class Pathway] and a verification of its
    construction, its normalisation and its two-phase validation.

    The record is an attribute dictionary with a back-reference to the
    schedule that owns it.  A validator is a function in a small monad that
    threads the problem reporter and may raise.  The schedule, the reporter
    and the [util] helpers are collaborators: the schedule is seen through
    its stop collection and through the calls made on it, the reporter
    through the calls made on it, and the helpers are parameters.  Integers
    are unbounded and comparisons across types raise, as in Python 3. *)

From Stdlib Require Import ZArith QArith Qabs Ascii String List Bool Lia.
From stdpp Require Import base option strings gmap.

Import ListNotations.
Local Open Scope string_scope.
Local Open Scope list_scope.
Local Open Scope Z_scope.

(** ** Python values held by the fields of a record *)

(** A field holds [None], a string (a cell of a parsed row) or an integer.
    Python's [bool] is a subclass of [int], so [True] and [False] are the
    integers 1 and 0. *)
Inductive value : Type :=
| VNone
| VStr (s : string)
| VInt (z : Z).

#[global] Instance value_eq_dec : EqDecision value.
Proof. solve_decision. Defined.

(** [isinstance(v, int)] *)
Definition isinstance_int (v : value) : bool :=
  match v with VInt _ => true | _ => false end.

(** [v == w] on values; an integer never equals a string or [None]. *)
Definition py_eq (v w : value) : bool := bool_decide (v = w).

(** [v in (a, b, ...)] on a tuple of values. *)
Definition py_in (v : value) (t : list value) : bool :=
  existsb (py_eq v) t.

(** ** Exceptions and the reporter monad *)

Inductive exn : Type :=
| TypeError
| ValueError
| KeyError
| AttributeError.

Inductive result (A : Type) : Type :=
| Ok (a : A)
| Raise (e : exn).
Arguments Ok {A} a.
Arguments Raise {A} e.

(** [try: m except (TypeError, ValueError): h] *)
Definition try_except_TypeError_ValueError {A} (m : result A) (h : A) : result A :=
  match m with
  | Ok a => Ok a
  | Raise TypeError | Raise ValueError => Ok h
  | Raise e => Raise e
  end.

(** problems_module.TYPE_ERROR and TYPE_WARNING *)
Inductive problem_type : Type :=
| TYPE_ERROR
| TYPE_WARNING.

(** The calls the validators make on the problem reporter, with the arguments
    they pass.  A call that passes no [type=] has the reporter's default,
    which is the error severity; it is written out as [TYPE_ERROR] for
    [InvalidValue] and [PathwayDistanceTooBig], the two calls the source
    makes both with and without [type=].  The other three are only made
    without it: their severity is the reporter's own affair (it files
    [PathwayWalkingSpeedTooFast] as a warning). *)
Inductive problem : Type :=
| MissingValue (column_name : string)
| InvalidValue (column_name : string) (v : value)
    (reason : option string) (type : problem_type)
| MinimumPathwayTimeSetWithInvalidPathwayMode (pathway_mode : value)
| PathwayDistanceTooBig (from_stop_id to_stop_id : value) (distance : Q)
    (type : problem_type)
| PathwayWalkingSpeedTooFast (from_stop_id to_stop_id : value)
    (transfer_time : value) (distance : Q).

(** The reporter is the only mutable object the validators share: it
    receives the reports in order. *)
Definition ProblemReporter : Type := list problem.

(** A method that may report problems and may raise. *)
Definition M (A : Type) : Type := ProblemReporter -> result A * ProblemReporter.

Definition ret {A} (a : A) : M A := fun problems => (Ok a, problems).

Definition raise {A} (e : exn) : M A := fun problems => (Raise e, problems).

Definition bind {A B} (m : M A) (f : A -> M B) : M B :=
  fun problems =>
    match m problems with
    | (Ok a, problems') => f a problems'
    | (Raise e, problems') => (Raise e, problems')
    end.

Definition report (p : problem) : M unit :=
  fun problems => (Ok tt, problems ++ [p]).

Definition lift {A} (r : result A) : M A := fun problems => (r, problems).

Declare Scope py_scope.
Delimit Scope py_scope with py.
Notation "x <- m ;; k" := (bind m (fun x => k))
  (at level 100, m at next level, right associativity) : py_scope.
Notation "m ;;; k" := (bind m (fun _ => k))
  (at level 100, right associativity) : py_scope.

(** ** The schedule (registry) and its stops *)

Record Stop : Type := { stop_lat : Q; stop_lon : Q }.

Record Schedule : Type := { stops : gmap string Stop }.

(** [k in stops.keys()] and [stops[k]]: the keys of the stop collection are
    the stop ids, which are strings; any other value is no key of it. *)
Definition stops_get (st : gmap string Stop) (k : value) : option Stop :=
  match k with
  | VStr s => st !! s
  | _ => None
  end.

(** Distances are Python floats.  Every finite float is a rational, Python
    compares an [int] with a [float] by their exact values, and halving a
    float is exact, so distances are rationals here; NaN and the infinities
    are left out. *)
Definition Qltb (x y : Q) : bool := negb (Qle_bool y x).

(** ** The helpers of the [util] module

    [util.py] is not among the sources: the three helpers the class calls
    are taken as parameters, and every result below holds for all of them.
    [NonNegIntStringToInt] returns the parsed integer or raises. *)
Class Util : Type := {
  IsEmpty : value -> bool;
  NonNegIntStringToInt : value -> result Z;
  ApproximateDistanceBetweenStops : Stop -> Stop -> Q
}.

(** ** The record *)

(** An instance is its attribute dictionary and the back-reference
    [_schedule] to the registry that owns it. *)
Record Pathway : Type := {
  _schedule : option Schedule;
  __dict__ : gmap string value
}.

Definition _REQUIRED_FIELD_NAMES : list string :=
  ["pathway_id"; "from_stop_id"; "to_stop_id"; "pathway_mode";
   "is_bidirectional"].

Definition _FIELD_NAMES : list string :=
  _REQUIRED_FIELD_NAMES
  ++ ["length"; "traversal_time"; "stair_count"; "max_slope"; "min_width";
      "signposted_as"; "reversed_signposted_as"].

(** [hasattr(self, name)]: whether reading the attribute succeeds.  An
    attribute that was set can be read; and the read of a field of the table
    that was never set answers [None] instead of failing (see [getattr]), so
    every field name has the attribute. *)
Definition hasattr (self : Pathway) (name : string) : bool :=
  bool_decide (is_Some (__dict__ self !! name))
  || bool_decide (name ∈ _FIELD_NAMES).

(** Modelled from the spec: the base class [GtfsObjectBase], which answers
    the read of an attribute that was never set, is not among the sources;
    by the data model a field that is absent reads as null.  This is also
    [getattr(self, name, None)]. *)
Definition getattr (self : Pathway) (name : string) : value :=
  default VNone (__dict__ self !! name).

(** [self.name = v] *)
Definition setattr (self : Pathway) (name : string) (v : value) : Pathway :=
  {| _schedule := _schedule self; __dict__ := <[name := v]> (__dict__ self) |}.

Definition pathway_id (self : Pathway) : value := getattr self "pathway_id".
Definition from_stop_id (self : Pathway) : value := getattr self "from_stop_id".
Definition to_stop_id (self : Pathway) : value := getattr self "to_stop_id".
Definition pathway_mode (self : Pathway) : value := getattr self "pathway_mode".
Definition is_bidirectional (self : Pathway) : value := getattr self "is_bidirectional".
Definition traversal_time (self : Pathway) : value := getattr self "traversal_time".

(** The calls a record makes on the registry, with the arguments it passes:
    [schedule.AddPathwayObject(self)] has no reporter argument,
    [schedule.AddPathwayObject(self, problems)] has one. *)
Inductive registry_call : Type :=
| AddPathwayObject (schedule : Schedule) (self : Pathway)
    (problems : option ProblemReporter).

(** ** Construction *)

Section Construction.
Context `{Util}.

(** Lines 31-40: the fields come from [field_dict] when it is given and not
    empty, and from the explicit arguments otherwise.  The keys of a field
    mapping are the column names of a row; a mapping that holds the private
    name [_schedule], which the update would write over the back-reference,
    is outside the model. *)
Definition assign_fields
    (pathway_id from_stop_id to_stop_id pathway_mode is_bidirectional
     traversal_time : value) (field_dict : option (gmap string value)) : Pathway :=
  let self := {| _schedule := None; __dict__ := ∅ |} in
  match field_dict with
  | Some d =>
      if bool_decide (d = ∅) then
        setattr (setattr (setattr (setattr (setattr (setattr self
          "pathway_id" pathway_id) "from_stop_id" from_stop_id)
          "to_stop_id" to_stop_id) "pathway_mode" pathway_mode)
          "traversal_time" traversal_time) "is_bidirectional" is_bidirectional
      else {| _schedule := _schedule self; __dict__ := d ∪ __dict__ self |}
  | None =>
      setattr (setattr (setattr (setattr (setattr (setattr self
        "pathway_id" pathway_id) "from_stop_id" from_stop_id)
        "to_stop_id" to_stop_id) "pathway_mode" pathway_mode)
        "traversal_time" traversal_time) "is_bidirectional" is_bidirectional
  end.

(** Lines 42-49. *)
Definition normalize_pathway_mode (self : Pathway) : result Pathway :=
  if py_in (getattr self "pathway_mode") [VStr ""; VNone] then
    Ok (setattr self "pathway_mode" (VInt 2))
  else
    try_except_TypeError_ValueError
      (match NonNegIntStringToInt (pathway_mode self) with
       | Ok z => Ok (setattr self "pathway_mode" (VInt z))
       | Raise e => Raise e
       end)
      self.

(** Lines 51-57. *)
Definition normalize_traversal_time (self : Pathway) : result Pathway :=
  if hasattr self "traversal_time" then
    try_except_TypeError_ValueError
      (match NonNegIntStringToInt (traversal_time self) with
       | Ok z => Ok (setattr self "traversal_time" (VInt z))
       | Raise e => Raise e
       end)
      self
  else Ok (setattr self "traversal_time" VNone).

(** [Pathway(schedule, pathway_id, ..., field_dict)]: the constructed record
    and the calls made on the registry (lines 58-62). *)
Definition __init__ (schedule : option Schedule)
    (pathway_id from_stop_id to_stop_id pathway_mode is_bidirectional
     traversal_time : value) (field_dict : option (gmap string value))
    : result (Pathway * list registry_call) :=
  let self := assign_fields pathway_id from_stop_id to_stop_id pathway_mode
                is_bidirectional traversal_time field_dict in
  match normalize_pathway_mode self with
  | Raise e => Raise e
  | Ok self =>
      match normalize_traversal_time self with
      | Raise e => Raise e
      | Ok self =>
          match schedule with
          | Some schedule => Ok (self, [AddPathwayObject schedule self None])
          | None => Ok (self, [])
          end
      end
  end.

(** [self.AddToSchedule(schedule, problems)] *)
Definition AddToSchedule (self : Pathway) (schedule : Schedule)
    (problems : ProblemReporter) : list registry_call :=
  [AddPathwayObject schedule self (Some problems)].

End Construction.

(** ** Validation *)

(** [v < n] for an integer literal [n]: an integer is compared, [None] and a
    string raise TypeError (Python 3; Python 2 would order them and raise at
    the addition two lines further). *)
Definition py_lt_int (v : value) (n : Z) : result bool :=
  match v with
  | VInt z => Ok (z <? n)
  | _ => Raise TypeError
  end.

(** [v + n] for an integer literal [n]. *)
Definition py_add_int (v : value) (n : Z) : result Z :=
  match v with
  | VInt z => Ok (z + n)
  | _ => Raise TypeError
  end.

(** [v in range(lo, hi)] *)
Definition py_in_range (v : value) (lo hi : Z) : bool :=
  match v with
  | VInt z => (lo <=? z) && (z <? hi)
  | _ => false
  end.

Section Validation.
Context `{Util}.

Local Open Scope py_scope.

Definition ValidateFromStopIdIsPresent (self : Pathway) : M bool :=
  if IsEmpty (from_stop_id self) then
    report (MissingValue "from_stop_id") ;;;
    ret false
  else ret true.

Definition ValidateToStopIdIsPresent (self : Pathway) : M bool :=
  if IsEmpty (to_stop_id self) then
    report (MissingValue "to_stop_id") ;;;
    ret false
  else ret true.

Definition ValidatePathwayMode (self : Pathway) : M bool :=
  if negb (IsEmpty (pathway_mode self)) then
    if negb (isinstance_int (pathway_mode self))
       || negb (py_in_range (pathway_mode self) 1 8) then
      report (InvalidValue "pathway_mode" (pathway_mode self) None TYPE_ERROR) ;;;
      ret false
    else ret true
  else ret true.

Definition ValidateMinimumPathwayTime (self : Pathway) : M bool :=
  if negb (IsEmpty (traversal_time self)) then
    (if negb (py_eq (pathway_mode self) (VInt 2)) then
       report (MinimumPathwayTimeSetWithInvalidPathwayMode (pathway_mode self))
     else ret tt) ;;;
    match traversal_time self with
    | VInt t =>
        (if t <? 0 then
           report (InvalidValue "traversal_time" (traversal_time self)
                     (Some "This field cannot contain a negative value.")
                     TYPE_ERROR)
         else if t >=? 24 * 3600 then
           report (InvalidValue "traversal_time" (traversal_time self)
                     (Some "The value is very large for a transfer time and most likely indicates an error.")
                     TYPE_ERROR)
         else if t >=? 3 * 3600 then
           report (InvalidValue "traversal_time" (traversal_time self)
                     (Some "The value is large for a transfer time and most likely indicates an error.")
                     TYPE_WARNING)
         else ret tt) ;;;
        ret true
    | _ =>
        report (InvalidValue "traversal_time" (traversal_time self)
                  (Some "If present, this field should contain an integer value.")
                  TYPE_ERROR) ;;;
        ret false
    end
  else ret true.

(** [self._schedule.stops]; reading [stops] off [None] raises. *)
Definition schedule_stops (self : Pathway) : M (gmap string Stop) :=
  match _schedule self with
  | Some schedule => ret (stops schedule)
  | None => raise AttributeError
  end.

(** [stops[k]] *)
Definition stops_getitem (st : gmap string Stop) (k : value) : M Stop :=
  match stops_get st k with
  | Some stop => ret stop
  | None => raise KeyError
  end.

Definition GetPathwayDistance (self : Pathway) : M Q :=
  st <- schedule_stops self ;;
  from_stop <- stops_getitem st (from_stop_id self) ;;
  st <- schedule_stops self ;;
  to_stop <- stops_getitem st (to_stop_id self) ;;
  let distance := ApproximateDistanceBetweenStops from_stop to_stop in
  ret distance.

Definition ValidateFromStopIdIsValid (self : Pathway) : M bool :=
  st <- schedule_stops self ;;
  if negb (bool_decide (is_Some (stops_get st (from_stop_id self)))) then
    report (InvalidValue "from_stop_id" (from_stop_id self) None TYPE_ERROR) ;;;
    ret false
  else ret true.

Definition ValidateToStopIdIsValid (self : Pathway) : M bool :=
  st <- schedule_stops self ;;
  if negb (bool_decide (is_Some (stops_get st (to_stop_id self)))) then
    report (InvalidValue "to_stop_id" (to_stop_id self) None TYPE_ERROR) ;;;
    ret false
  else ret true.

Definition ValidatePathwayDistance (self : Pathway) : M unit :=
  distance <- GetPathwayDistance self ;;
  if Qltb (10000 # 1) distance then
    report (PathwayDistanceTooBig (from_stop_id self) (to_stop_id self)
              distance TYPE_ERROR)
  else if Qltb (2000 # 1) distance then
    report (PathwayDistanceTooBig (from_stop_id self) (to_stop_id self)
              distance TYPE_WARNING)
  else ret tt.

Definition FAST_WALKING_SPEED : Q := 2 # 1.

Definition ValidatePathwayWalkingTime (self : Pathway) : M unit :=
  if IsEmpty (traversal_time self) then ret tt
  else
    negative <- lift (py_lt_int (traversal_time self) 0) ;;
    if (negative : bool) then ret tt
    else
      distance <- GetPathwayDistance self ;;
      allowed <- lift (py_add_int (traversal_time self) 120) ;;
      if Qltb (inject_Z allowed) (distance / FAST_WALKING_SPEED) then
        report (PathwayWalkingSpeedTooFast (from_stop_id self) (to_stop_id self)
                  (traversal_time self) distance)
      else ret tt.

Definition ValidateBeforeAdd (self : Pathway) : M bool :=
  let result := true in
  r <- ValidateFromStopIdIsPresent self ;;
  let result := r && result in
  r <- ValidateToStopIdIsPresent self ;;
  let result := r && result in
  r <- ValidatePathwayMode self ;;
  let result := r && result in
  r <- ValidateMinimumPathwayTime self ;;
  let result := r && result in
  ret result.

Definition ValidateAfterAdd (self : Pathway) : M unit :=
  let valid_stop_ids := true in
  r <- ValidateFromStopIdIsValid self ;;
  let valid_stop_ids := r && valid_stop_ids in
  r <- ValidateToStopIdIsValid self ;;
  let valid_stop_ids := r && valid_stop_ids in
  if valid_stop_ids then
    ValidatePathwayDistance self ;;;
    ValidatePathwayWalkingTime self
  else ret tt.

(** [if self._schedule:] a record is attached when the back-reference is
    set. *)
Definition attached (self : Pathway) : bool :=
  bool_decide (is_Some (_schedule self)).

Definition Validate (self : Pathway) : M unit :=
  ok <- ValidateBeforeAdd self ;;
  if ok && attached self then ValidateAfterAdd self
  else ret tt.

(** Lines 149-169, 179-187 and 189-192 once more, with the addition of line
    165 taken as the parameter [add]: the methods themselves are the
    instances at [py_add_int].  They serve to say which operands the
    addition is applied to. *)
Definition ValidatePathwayWalkingTime_with (add : value -> Z -> result Z)
    (self : Pathway) : M unit :=
  if IsEmpty (traversal_time self) then ret tt
  else
    negative <- lift (py_lt_int (traversal_time self) 0) ;;
    if (negative : bool) then ret tt
    else
      distance <- GetPathwayDistance self ;;
      allowed <- lift (add (traversal_time self) 120) ;;
      if Qltb (inject_Z allowed) (distance / FAST_WALKING_SPEED) then
        report (PathwayWalkingSpeedTooFast (from_stop_id self) (to_stop_id self)
                  (traversal_time self) distance)
      else ret tt.

Definition ValidateAfterAdd_with (add : value -> Z -> result Z)
    (self : Pathway) : M unit :=
  let valid_stop_ids := true in
  r <- ValidateFromStopIdIsValid self ;;
  let valid_stop_ids := r && valid_stop_ids in
  r <- ValidateToStopIdIsValid self ;;
  let valid_stop_ids := r && valid_stop_ids in
  if valid_stop_ids then
    ValidatePathwayDistance self ;;;
    ValidatePathwayWalkingTime_with add self
  else ret tt.

Definition Validate_with (add : value -> Z -> result Z)
    (self : Pathway) : M unit :=
  ok <- ValidateBeforeAdd self ;;
  if ok && attached self then ValidateAfterAdd_with add self
  else ret tt.

(** The two stops a record refers to, when it is attached and both ids are
    keys of the registry's stop collection. *)
Definition resolved_stops (self : Pathway) : option (Stop * Stop) :=
  match _schedule self with
  | Some schedule =>
      match stops_get (stops schedule) (from_stop_id self),
            stops_get (stops schedule) (to_stop_id self) with
      | Some from_stop, Some to_stop => Some (from_stop, to_stop)
      | _, _ => None
      end
  | None => None
  end.

End Validation.

(** What a method returns and what it reports when it runs on its own, on a
    reporter that holds nothing yet. *)
Definition result_of {A} (m : M A) : result A := fst (m []).
Definition reports_of {A} (m : M A) : list problem := snd (m []).

(** ** A sample of the helpers, to run the embedding on concrete records *)

Definition is_digit (c : ascii) : bool :=
  let n := nat_of_ascii c in (48 <=? n)%nat && (n <=? 57)%nat.

Fixpoint digits_to_Z (s : string) (acc : Z) : option Z :=
  match s with
  | EmptyString => Some acc
  | String c s' =>
      if is_digit c
      then digits_to_Z s' (10 * acc + (Z.of_nat (nat_of_ascii c) - 48))
      else None
  end.

(** Modelled from the spec: [util.IsEmpty] is not among the sources; a value
    is empty (blank) when it is null or the empty string. *)
Definition sample_IsEmpty (v : value) : bool :=
  match v with
  | VNone => true
  | VStr s => bool_decide (s = "")
  | VInt _ => false
  end.

(** Modelled from the spec: [util.NonNegIntStringToInt] is not among the
    sources; it is the non-negative-integer parse of a numeric string, which
    fails on a non-numeric or negative textual form (ValueError) and on a
    value that is no string (TypeError). *)
Definition sample_NonNegIntStringToInt (v : value) : result Z :=
  match v with
  | VStr EmptyString => Raise ValueError
  | VStr s =>
      match digits_to_Z s 0 with
      | Some z => Ok z
      | None => Raise ValueError
      end
  | _ => Raise TypeError
  end.

(** Modelled from the spec: [util.ApproximateDistanceBetweenStops] is not
    among the sources; it gives the approximate distance in metres between
    the coordinates of two stops.  The sample measures it along a meridian,
    111195 m to the degree of latitude, for stops of equal longitude. *)
Definition sample_ApproximateDistanceBetweenStops (a b : Stop) : Q :=
  Qred (Qabs (stop_lat a - stop_lat b) * (111195 # 1)).

Definition sample_util : Util := {|
  IsEmpty := sample_IsEmpty;
  NonNegIntStringToInt := sample_NonNegIntStringToInt;
  ApproximateDistanceBetweenStops := sample_ApproximateDistanceBetweenStops
|}.

(** Two stops on the meridian of Greenwich, [metres] apart. *)
Definition stops_apart (metres : Z) : Schedule :=
  {| stops :=
       <["A" := {| stop_lat := 0; stop_lon := 0 |}]>
       (<["B" := {| stop_lat := metres # 111195; stop_lon := 0 |}]> ∅) |}.

(** A record from stop A to stop B, attached to [schedule]. *)
Definition pathway_A_B (schedule : option Schedule) (mode time : value) : Pathway :=
  {| _schedule := schedule;
     __dict__ :=
       <["pathway_id" := VStr "p1"]>
       (<["from_stop_id" := VStr "A"]>
       (<["to_stop_id" := VStr "B"]>
       (<["pathway_mode" := mode]>
       (<["traversal_time" := time]> ∅)))) |}.

(** An addition that is defined on the non-negative integers only: on a
    negative integer and on anything that is no integer it raises. *)
Definition add_nonneg_only (v : value) (n : Z) : result Z :=
  match v with
  | VInt z => if z <? 0 then Raise ValueError else Ok (z + n)
  | _ => Raise TypeError
  end.

(** A record with nothing valid in it: no stop ids, a mode outside 1..7 and
    a time that is no integer. *)
Definition pathway_all_wrong : Pathway :=
  {| _schedule := None;
     __dict__ :=
       <["pathway_id" := VStr "p2"]>
       (<["from_stop_id" := VStr ""]>
       (<["pathway_mode" := VInt 9]>
       (<["traversal_time" := VStr "abc"]> ∅))) |}.

(** A record attached to a registry that knows neither of its stops. *)
Definition pathway_X_Y (time : value) : Pathway :=
  {| _schedule := Some (stops_apart 500);
     __dict__ :=
       <["pathway_id" := VStr "p3"]>
       (<["from_stop_id" := VStr "X"]>
       (<["to_stop_id" := VStr "Y"]>
       (<["pathway_mode" := VInt 2]>
       (<["traversal_time" := time]> ∅)))) |}.

(** The record that the constructor builds from the explicit fields
    [pathway_id="p1", from_stop_id="A", to_stop_id="B"] once the mode is
    normalised to [mode]. *)
Definition constructed_A_B (mode : value) : Pathway :=
  {| _schedule := None;
     __dict__ :=
       <["pathway_id" := VStr "p1"]>
       (<["from_stop_id" := VStr "A"]>
       (<["to_stop_id" := VStr "B"]>
       (<["pathway_mode" := mode]>
       (<["traversal_time" := VNone]>
       (<["is_bidirectional" := VNone]> ∅))))) |}.

(** ** Properties of the reporter monad *)

(** A method only appends to the reporter, and what it does is independent
    of what the reporter already holds. *)
Definition appends {A} (m : M A) : Prop :=
  forall problems, m problems = (result_of m, problems ++ reports_of m).

Lemma appends_ret {A} (a : A) : appends (ret a).
Proof. intros problems. unfold ret, result_of, reports_of. simpl. by rewrite app_nil_r. Qed.

Lemma appends_raise {A} (e : exn) : appends (@raise A e).
Proof. intros problems. unfold raise, result_of, reports_of. simpl. by rewrite app_nil_r. Qed.

Lemma appends_lift {A} (r : result A) : appends (lift r).
Proof. intros problems. unfold lift, result_of, reports_of. simpl. by rewrite app_nil_r. Qed.

Lemma appends_report (p : problem) : appends (report p).
Proof. intros problems. reflexivity. Qed.

Lemma appends_bind {A B} (m : M A) (f : A -> M B) :
  appends m -> (forall a, appends (f a)) -> appends (bind m f).
Proof.
  intros Hm Hf problems. unfold result_of, reports_of, bind.
  rewrite (Hm problems), (Hm []). simpl.
  destruct (result_of m) as [a|e]; simpl.
  - rewrite (Hf a (problems ++ reports_of m)), (Hf a (reports_of m)). simpl.
    by rewrite app_assoc.
  - reflexivity.
Qed.

Lemma bind_Ok {A B} (m : M A) (f : A -> M B) problems a problems' :
  m problems = (Ok a, problems') -> bind m f problems = f a problems'.
Proof. intros Hm. unfold bind. by rewrite Hm. Qed.

Create HintDb appends.
#[global] Hint Resolve appends_ret appends_raise appends_lift appends_report : appends.

Ltac appends_tac :=
  repeat first
    [ solve [auto with appends]
    | apply appends_bind; [| intros ?]
    | match goal with
      | |- appends (if ?b then _ else _) => destruct b
      | |- appends (match ?x with _ => _ end) => destruct x
      end ].

Lemma Qltb_lt (x y : Q) : Qltb x y = true <-> (x < y)%Q.
Proof.
  unfold Qltb. rewrite negb_true_iff. split.
  - intros Hle. apply Qnot_le_lt. intros Hyx.
    apply Qle_bool_iff in Hyx. congruence.
  - intros Hlt. destruct (Qle_bool y x) eqn:E; [|done].
    apply Qle_bool_iff in E. exfalso. by apply (Qlt_not_le x y).
Qed.

Lemma Qltb_ge (x y : Q) : Qltb x y = false <-> ~ (x < y)%Q.
Proof.
  rewrite <- Qltb_lt. destruct (Qltb x y); split; intros; congruence.
Qed.

(** ** The validators on their own *)

Section ValidationFacts.
Context `{Util}.

Lemma resolved_stops_Some self a b :
  resolved_stops self = Some (a, b) ->
  exists schedule, _schedule self = Some schedule
    /\ stops_get (stops schedule) (from_stop_id self) = Some a
    /\ stops_get (stops schedule) (to_stop_id self) = Some b.
Proof.
  unfold resolved_stops. destruct (_schedule self) as [schedule|]; [|done].
  destruct (stops_get (stops schedule) (from_stop_id self)) as [x|] eqn:Ex; [|done].
  destruct (stops_get (stops schedule) (to_stop_id self)) as [y|] eqn:Ey; [|done].
  intros [= <- <-]. by exists schedule.
Qed.

Lemma GetPathwayDistance_resolved self a b problems :
  resolved_stops self = Some (a, b) ->
  GetPathwayDistance self problems
  = (Ok (ApproximateDistanceBetweenStops a b), problems).
Proof.
  intros (schedule & Hs & Ha & Hb)%resolved_stops_Some.
  unfold GetPathwayDistance, schedule_stops, stops_getitem, bind, ret.
  by rewrite Hs, Ha, Hb.
Qed.

Lemma ValidatePathwayDistance_resolved self a b problems :
  resolved_stops self = Some (a, b) ->
  let distance := ApproximateDistanceBetweenStops a b in
  ValidatePathwayDistance self problems
  = (Ok tt,
     problems ++
     (if Qltb (10000 # 1) distance then
        [PathwayDistanceTooBig (from_stop_id self) (to_stop_id self) distance TYPE_ERROR]
      else if Qltb (2000 # 1) distance then
        [PathwayDistanceTooBig (from_stop_id self) (to_stop_id self) distance TYPE_WARNING]
      else [])).
Proof.
  intros Hr distance. unfold ValidatePathwayDistance.
  rewrite (bind_Ok _ _ _ _ _ (GetPathwayDistance_resolved _ _ _ _ Hr)).
  fold distance.
  destruct (Qltb (10000 # 1) distance); [reflexivity|].
  destruct (Qltb (2000 # 1) distance); [reflexivity|].
  unfold ret. by rewrite app_nil_r.
Qed.

End ValidationFacts.

(** ** Running the embedding *)

Example sample_distance_5001 :
  GetPathwayDistance (H := sample_util)
    (pathway_A_B (Some (stops_apart 5001)) (VInt 2) VNone) []
  = (Ok (5001 # 1), []).
Proof. vm_compute. reflexivity. Qed.

Example sample_validate_clean :
  Validate (H := sample_util)
    (pathway_A_B (Some (stops_apart 500)) (VInt 2) (VInt 300)) []
  = (Ok tt, []).
Proof. vm_compute. reflexivity. Qed.

Example sample_walking_too_fast :
  Validate (H := sample_util)
    (pathway_A_B (Some (stops_apart 500)) (VInt 2) (VInt 100)) []
  = (Ok tt, [PathwayWalkingSpeedTooFast (VStr "A") (VStr "B") (VInt 100) (500 # 1)]).
Proof. vm_compute. reflexivity. Qed.

Example sample_init_string_mode :
  __init__ (H := sample_util) None (VStr "p1") (VStr "A") (VStr "B") (VStr "4")
    VNone (VStr "60") None
  = Ok ({| _schedule := None;
           __dict__ :=
             <["pathway_id" := VStr "p1"]>
             (<["from_stop_id" := VStr "A"]>
             (<["to_stop_id" := VStr "B"]>
             (<["pathway_mode" := VInt 4]>
             (<["traversal_time" := VInt 60]>
             (<["is_bidirectional" := VNone]> ∅))))) |}, []).
Proof. vm_compute. reflexivity. Qed.

(** ** The distance thresholds *)

Section Distance.
Context `{Util}.

(** C2: when both stops resolve, [ValidatePathwayDistance] takes exactly one
    of three branches on the distance [d]: above 10000 m one
    PathwayDistanceTooBig at error severity; otherwise above 2000 m one
    PathwayDistanceTooBig at warning severity; otherwise nothing.  Both
    comparisons are strict and the first match wins. *)
Theorem ValidatePathwayDistance_thresholds self a b problems :
  resolved_stops self = Some (a, b) ->
  let d := ApproximateDistanceBetweenStops a b in
  let too_big := PathwayDistanceTooBig (from_stop_id self) (to_stop_id self) d in
  ((10000 # 1 < d)%Q ->
     ValidatePathwayDistance self problems
     = (Ok tt, problems ++ [too_big TYPE_ERROR]))
  /\ (~ (10000 # 1 < d)%Q -> (2000 # 1 < d)%Q ->
     ValidatePathwayDistance self problems
     = (Ok tt, problems ++ [too_big TYPE_WARNING]))
  /\ (~ (10000 # 1 < d)%Q -> ~ (2000 # 1 < d)%Q ->
     ValidatePathwayDistance self problems = (Ok tt, problems)).
Proof.
  intros Hr d too_big.
  rewrite (ValidatePathwayDistance_resolved self a b problems Hr). fold d.
  split; [|split].
  - intros Hd%Qltb_lt. by rewrite Hd.
  - intros Hn%Qltb_ge Hd%Qltb_lt. by rewrite Hn, Hd.
  - intros Hn%Qltb_ge Hm%Qltb_ge. by rewrite Hn, Hm, app_nil_r.
Qed.

(** C1, as the code has it: with both stops resolved, at 10001 m
    [ValidatePathwayDistance] reports PathwayDistanceTooBig at error
    severity, at 5001 m and at 3000 m it reports it at warning severity, and
    at 1500 m it reports nothing. *)
Theorem ValidatePathwayDistance_sample_distances self a b problems :
  resolved_stops self = Some (a, b) ->
  let d := ApproximateDistanceBetweenStops a b in
  let too_big := PathwayDistanceTooBig (from_stop_id self) (to_stop_id self) d in
  ((d == 10001 # 1)%Q ->
     ValidatePathwayDistance self problems
     = (Ok tt, problems ++ [too_big TYPE_ERROR]))
  /\ ((d == 5001 # 1)%Q ->
     ValidatePathwayDistance self problems
     = (Ok tt, problems ++ [too_big TYPE_WARNING]))
  /\ ((d == 3000 # 1)%Q ->
     ValidatePathwayDistance self problems
     = (Ok tt, problems ++ [too_big TYPE_WARNING]))
  /\ ((d == 1500 # 1)%Q ->
     ValidatePathwayDistance self problems = (Ok tt, problems)).
Proof.
  intros Hr d too_big.
  rewrite (ValidatePathwayDistance_resolved self a b problems Hr). fold d.
  assert (Hcmp : forall lo v : Z, (d == v # 1)%Q ->
            Qltb (lo # 1) d = (lo <? v)).
  { intros lo v Hd. destruct (lo <? v) eqn:E.
    - apply Qltb_lt. rewrite Hd. unfold Qlt. simpl. lia.
    - apply Qltb_ge. rewrite Hd. unfold Qlt. simpl. lia. }
  repeat split; intros Hd;
    rewrite (Hcmp 10000 _ Hd); simpl; try rewrite (Hcmp 2000 _ Hd); simpl;
    by rewrite ?app_nil_r.
Qed.

End Distance.

Lemma ValidatePathwayDistance_thresholds_witness :
  ValidatePathwayDistance (H := sample_util)
    (pathway_A_B (Some (stops_apart 3000)) (VInt 2) VNone) []
  = (Ok tt, [PathwayDistanceTooBig (VStr "A") (VStr "B") (3000 # 1) TYPE_WARNING]).
Proof.
  refine (proj1 (proj2 (ValidatePathwayDistance_thresholds (H := sample_util)
            (pathway_A_B (Some (stops_apart 3000)) (VInt 2) VNone)
            {| stop_lat := 0; stop_lon := 0 |}
            {| stop_lat := 3000 # 111195; stop_lon := 0 |} [] _)) _ _).
  - vm_compute. reflexivity.
  - vm_compute. intros Hlt. discriminate Hlt.
  - vm_compute. reflexivity.
Defined.

Lemma ValidatePathwayDistance_sample_distances_witness :
  ValidatePathwayDistance (H := sample_util)
    (pathway_A_B (Some (stops_apart 5001)) (VInt 2) VNone) []
  = (Ok tt, [PathwayDistanceTooBig (VStr "A") (VStr "B") (5001 # 1) TYPE_WARNING]).
Proof.
  refine (proj1 (proj2 (ValidatePathwayDistance_sample_distances (H := sample_util)
            (pathway_A_B (Some (stops_apart 5001)) (VInt 2) VNone)
            {| stop_lat := 0; stop_lon := 0 |}
            {| stop_lat := 5001 # 111195; stop_lon := 0 |} [] _)) _).
  - vm_compute. reflexivity.
  - vm_compute. reflexivity.
Defined.

(** C1 fails at 5001 m: the report is a warning, and no
    PathwayDistanceTooBig at error severity is reported. *)
Lemma ValidatePathwayDistance_5001_not_error :
  let self := pathway_A_B (Some (stops_apart 5001)) (VInt 2) VNone in
  GetPathwayDistance (H := sample_util) self [] = (Ok (5001 # 1), [])
  /\ ValidatePathwayDistance (H := sample_util) self []
     = (Ok tt, [PathwayDistanceTooBig (VStr "A") (VStr "B") (5001 # 1) TYPE_WARNING])
  /\ ~ In (PathwayDistanceTooBig (VStr "A") (VStr "B") (5001 # 1) TYPE_ERROR)
          (snd (ValidatePathwayDistance (H := sample_util) self [])).
Proof.
  intros self. split; [|split].
  - vm_compute. reflexivity.
  - vm_compute. reflexivity.
  - vm_compute. intros [Habs|[]]. discriminate Habs.
Qed.

(** ** Walking speed *)

Section WalkingTime.
Context `{Util}.

Lemma halved_short_distance (t : Z) (d : Q) :
  0 <= t -> (d <= 240 # 1)%Q ->
  ~ (inject_Z (t + 120) < d / FAST_WALKING_SPEED)%Q.
Proof.
  intros Ht Hd. apply Qle_not_lt.
  destruct d as [n m]. unfold Qle, Qdiv, Qmult, Qinv, inject_Z in *. simpl in *.
  rewrite Pos2Z.inj_mul. nia.
Qed.

(** C3: [ValidatePathwayWalkingTime] reports nothing when [traversal_time]
    is empty or negative; for a non-negative integer [t] and the computed
    distance [d] it reports PathwayWalkingSpeedTooFast, carrying
    [from_stop_id], [to_stop_id], [t] and [d], exactly when
    [t + 120 < d / 2]; so for [d <= 240] it reports nothing whatever [t]. *)
Theorem ValidatePathwayWalkingTime_spec self problems :
  (IsEmpty (traversal_time self) = true ->
     ValidatePathwayWalkingTime self problems = (Ok tt, problems))
  /\ (forall t, traversal_time self = VInt t -> t < 0 ->
     ValidatePathwayWalkingTime self problems = (Ok tt, problems))
  /\ (forall t a b,
     traversal_time self = VInt t -> IsEmpty (VInt t) = false -> 0 <= t ->
     resolved_stops self = Some (a, b) ->
     let d := ApproximateDistanceBetweenStops a b in
     let too_fast :=
       PathwayWalkingSpeedTooFast (from_stop_id self) (to_stop_id self) (VInt t) d in
     ((inject_Z (t + 120) < d / (2 # 1))%Q ->
        ValidatePathwayWalkingTime self problems = (Ok tt, problems ++ [too_fast]))
     /\ (~ (inject_Z (t + 120) < d / (2 # 1))%Q ->
        ValidatePathwayWalkingTime self problems = (Ok tt, problems))
     /\ ((d <= 240 # 1)%Q ->
        ValidatePathwayWalkingTime self problems = (Ok tt, problems))).
Proof.
  split; [|split].
  - intros He. unfold ValidatePathwayWalkingTime. by rewrite He.
  - intros t Ht Hneg. unfold ValidatePathwayWalkingTime. rewrite Ht.
    destruct (IsEmpty (VInt t)); [done|].
    unfold bind, lift, ret. simpl.
    by replace (t <? 0) with true by lia.
  - intros t a b Ht He Hpos Hr d too_fast.
    assert (Hrun : ValidatePathwayWalkingTime self problems
                   = (Ok tt, problems ++
                        if Qltb (inject_Z (t + 120)) (d / FAST_WALKING_SPEED)
                        then [too_fast] else [])).
    { unfold ValidatePathwayWalkingTime. rewrite Ht, He.
      unfold bind at 1. unfold lift at 1. simpl.
      replace (t <? 0) with false by lia.
      rewrite <- Ht.
      rewrite (bind_Ok _ _ _ _ _ (GetPathwayDistance_resolved _ _ _ _ Hr)).
      fold d. rewrite Ht. unfold bind, lift. simpl.
      destruct (Qltb _ _); [reflexivity|]. unfold ret. by rewrite app_nil_r. }
    rewrite Hrun. change FAST_WALKING_SPEED with (2 # 1).
    split; [|split].
    + intros Hlt%Qltb_lt. by rewrite Hlt.
    + intros Hge%Qltb_ge. by rewrite Hge, app_nil_r.
    + intros Hd. pose proof (halved_short_distance t d Hpos Hd) as Hge.
      apply Qltb_ge in Hge. change FAST_WALKING_SPEED with (2 # 1) in Hge.
      by rewrite Hge, app_nil_r.
Qed.

End WalkingTime.

Lemma ValidatePathwayWalkingTime_spec_witness :
  ValidatePathwayWalkingTime (H := sample_util)
    (pathway_A_B (Some (stops_apart 500)) (VInt 2) (VInt 100)) []
  = (Ok tt, [PathwayWalkingSpeedTooFast (VStr "A") (VStr "B") (VInt 100) (500 # 1)])
  /\ ValidatePathwayWalkingTime (H := sample_util)
       (pathway_A_B (Some (stops_apart 200)) (VInt 2) (VInt 0)) []
     = (Ok tt, [])
  /\ ValidatePathwayWalkingTime (H := sample_util)
       (pathway_A_B (Some (stops_apart 500)) (VInt 2) (VInt (-5))) []
     = (Ok tt, [])
  /\ ValidatePathwayWalkingTime (H := sample_util)
       (pathway_A_B (Some (stops_apart 500)) (VInt 2) VNone) []
     = (Ok tt, []).
Proof.
  split; [|split; [|split]].
  - refine (proj1 (proj2 (proj2 (ValidatePathwayWalkingTime_spec (H := sample_util)
              (pathway_A_B (Some (stops_apart 500)) (VInt 2) (VInt 100)) []))
              100 {| stop_lat := 0; stop_lon := 0 |}
              {| stop_lat := 500 # 111195; stop_lon := 0 |} _ _ _ _) _).
    + vm_compute. reflexivity.
    + reflexivity.
    + lia.
    + vm_compute. reflexivity.
    + vm_compute. reflexivity.
  - refine (proj2 (proj2 (proj2 (proj2 (ValidatePathwayWalkingTime_spec (H := sample_util)
              (pathway_A_B (Some (stops_apart 200)) (VInt 2) (VInt 0)) []))
              0 {| stop_lat := 0; stop_lon := 0 |}
              {| stop_lat := 200 # 111195; stop_lon := 0 |} _ _ _ _)) _).
    + vm_compute. reflexivity.
    + reflexivity.
    + lia.
    + vm_compute. reflexivity.
    + vm_compute. intros Hgt. discriminate Hgt.
  - refine (proj1 (proj2 (ValidatePathwayWalkingTime_spec (H := sample_util)
              (pathway_A_B (Some (stops_apart 500)) (VInt 2) (VInt (-5))) []))
              (-5) _ _).
    + vm_compute. reflexivity.
    + lia.
  - refine (proj1 (ValidatePathwayWalkingTime_spec (H := sample_util)
              (pathway_A_B (Some (stops_apart 500)) (VInt 2) VNone) []) _).
    vm_compute. reflexivity.
Defined.

(** ** The minimum-pathway-time rule *)

Section MinimumPathwayTime.
Context `{Util}.

(** C4: for a non-empty integer [traversal_time] [t],
    [ValidateMinimumPathwayTime] reports InvalidValue at error severity when
    [t < 0] and when [t >= 24*3600], at warning severity when
    [3*3600 <= t < 24*3600], and no time-range problem when
    [0 <= t < 3*3600]; in all these cases it returns success.  It returns
    failure exactly when [traversal_time] is non-empty and no integer. *)
Theorem ValidateMinimumPathwayTime_spec self problems :
  (forall t, traversal_time self = VInt t -> IsEmpty (VInt t) = false ->
     let mode_problem :=
       if py_eq (pathway_mode self) (VInt 2) then []
       else [MinimumPathwayTimeSetWithInvalidPathwayMode (pathway_mode self)] in
     let invalid := InvalidValue "traversal_time" (VInt t) in
     (t < 0 ->
        ValidateMinimumPathwayTime self problems
        = (Ok true,
           problems ++ mode_problem ++
           [invalid (Some "This field cannot contain a negative value.") TYPE_ERROR]))
     /\ (24 * 3600 <= t ->
        ValidateMinimumPathwayTime self problems
        = (Ok true,
           problems ++ mode_problem ++
           [invalid (Some "The value is very large for a transfer time and most likely indicates an error.") TYPE_ERROR]))
     /\ (3 * 3600 <= t < 24 * 3600 ->
        ValidateMinimumPathwayTime self problems
        = (Ok true,
           problems ++ mode_problem ++
           [invalid (Some "The value is large for a transfer time and most likely indicates an error.") TYPE_WARNING]))
     /\ (0 <= t < 3 * 3600 ->
        ValidateMinimumPathwayTime self problems
        = (Ok true, problems ++ mode_problem)))
  /\ (fst (ValidateMinimumPathwayTime self problems) = Ok false
      <-> IsEmpty (traversal_time self) = false
          /\ isinstance_int (traversal_time self) = false)
  /\ (exists ok, fst (ValidateMinimumPathwayTime self problems) = Ok ok).
Proof.
  split; [|split].
  - intros t Ht He mode_problem invalid.
    unfold ValidateMinimumPathwayTime. rewrite Ht, He. simpl.
    subst mode_problem invalid.
    destruct (py_eq (pathway_mode self) (VInt 2)); simpl;
      unfold bind, report, ret; simpl;
      (repeat split; intros Hrange;
       [ replace (t <? 0) with true by lia
       | replace (t <? 0) with false by lia;
         replace (t >=? 24 * 3600) with true by lia
       | replace (t <? 0) with false by lia;
         replace (t >=? 24 * 3600) with false by lia;
         replace (t >=? 3 * 3600) with true by lia
       | replace (t <? 0) with false by lia;
         replace (t >=? 24 * 3600) with false by lia;
         replace (t >=? 3 * 3600) with false by lia ];
       rewrite <- ?app_assoc, ?app_nil_r; reflexivity).
  - unfold ValidateMinimumPathwayTime.
    destruct (IsEmpty (traversal_time self)); simpl.
    { split; [discriminate | intros [? _]; discriminate]. }
    destruct (traversal_time self) as [|s|t]; simpl;
      destruct (py_eq (pathway_mode self) (VInt 2)); simpl;
      unfold bind, report, ret; simpl;
      try (split; [done | intros []; done]);
      destruct (t <? 0), (t >=? 24 * 3600), (t >=? 3 * 3600); simpl;
      (split; [discriminate | intros [_ ?]; discriminate]).
  - unfold ValidateMinimumPathwayTime.
    destruct (IsEmpty (traversal_time self)); simpl; [by eexists|].
    destruct (traversal_time self) as [|s|t]; simpl;
      destruct (py_eq (pathway_mode self) (VInt 2)); simpl;
      unfold bind, report, ret; simpl; try (by eexists);
      destruct (t <? 0), (t >=? 24 * 3600), (t >=? 3 * 3600); simpl; by eexists.
Qed.

End MinimumPathwayTime.

Lemma ValidateMinimumPathwayTime_spec_witness :
  ValidateMinimumPathwayTime (H := sample_util)
    (pathway_A_B None (VInt 2) (VInt (3 * 3600))) []
  = (Ok true,
     [InvalidValue "traversal_time" (VInt 10800)
        (Some "The value is large for a transfer time and most likely indicates an error.")
        TYPE_WARNING])
  /\ ValidateMinimumPathwayTime (H := sample_util)
       (pathway_A_B None (VInt 1) (VInt (-5))) []
     = (Ok true,
        [MinimumPathwayTimeSetWithInvalidPathwayMode (VInt 1);
         InvalidValue "traversal_time" (VInt (-5))
           (Some "This field cannot contain a negative value.") TYPE_ERROR]).
Proof.
  split.
  - refine (proj1 (proj2 (proj2 (proj1 (ValidateMinimumPathwayTime_spec
              (H := sample_util)
              (pathway_A_B None (VInt 2) (VInt (3 * 3600))) [])
              (3 * 3600) _ _))) _).
    + vm_compute. reflexivity.
    + reflexivity.
    + lia.
  - refine (proj1 (proj1 (ValidateMinimumPathwayTime_spec (H := sample_util)
              (pathway_A_B None (VInt 1) (VInt (-5))) [])
              (-5) _ _) _).
    + vm_compute. reflexivity.
    + reflexivity.
    + lia.
Defined.

(** ** The two phases *)

Section Phases.
Context `{Util}.

Lemma ValidateFromStopIdIsPresent_appends self :
  appends (ValidateFromStopIdIsPresent self).
Proof. unfold ValidateFromStopIdIsPresent. appends_tac. Qed.

Lemma ValidateToStopIdIsPresent_appends self :
  appends (ValidateToStopIdIsPresent self).
Proof. unfold ValidateToStopIdIsPresent. appends_tac. Qed.

Lemma ValidatePathwayMode_appends self : appends (ValidatePathwayMode self).
Proof. unfold ValidatePathwayMode. appends_tac. Qed.

Lemma ValidateMinimumPathwayTime_appends self :
  appends (ValidateMinimumPathwayTime self).
Proof. unfold ValidateMinimumPathwayTime. appends_tac. Qed.

Lemma ValidateFromStopIdIsPresent_returns self :
  exists r, result_of (ValidateFromStopIdIsPresent self) = Ok r.
Proof.
  unfold result_of, ValidateFromStopIdIsPresent.
  destruct (IsEmpty _); by eexists.
Qed.

Lemma ValidateToStopIdIsPresent_returns self :
  exists r, result_of (ValidateToStopIdIsPresent self) = Ok r.
Proof.
  unfold result_of, ValidateToStopIdIsPresent.
  destruct (IsEmpty _); by eexists.
Qed.

Lemma ValidatePathwayMode_returns self :
  exists r, result_of (ValidatePathwayMode self) = Ok r.
Proof.
  unfold result_of, ValidatePathwayMode.
  destruct (negb (IsEmpty _)); [|by eexists].
  destruct (_ || _); by eexists.
Qed.

Lemma ValidateMinimumPathwayTime_returns self :
  exists r, result_of (ValidateMinimumPathwayTime self) = Ok r.
Proof.
  unfold result_of, ValidateMinimumPathwayTime.
  destruct (negb (IsEmpty _)); [|by eexists].
  destruct (negb (py_eq _ _)); destruct (traversal_time self) as [|s|t];
    unfold bind, report, ret; simpl; try (by eexists);
    destruct (t <? 0), (t >=? 24 * 3600), (t >=? 3 * 3600); by eexists.
Qed.

Lemma appends_run {A} (m : M A) (a : A) problems :
  appends m -> result_of m = Ok a ->
  m problems = (Ok a, problems ++ reports_of m).
Proof. intros Hm Ha. by rewrite (Hm problems), Ha. Qed.

(** C5: [ValidateBeforeAdd] runs the four checks on every call, whatever the
    earlier ones returned: it reports, in order, what each of the four
    reports on its own, and returns the conjunction of the four results. *)
Theorem ValidateBeforeAdd_runs_all_four self problems :
  exists r1 r2 r3 r4,
    result_of (ValidateFromStopIdIsPresent self) = Ok r1
    /\ result_of (ValidateToStopIdIsPresent self) = Ok r2
    /\ result_of (ValidatePathwayMode self) = Ok r3
    /\ result_of (ValidateMinimumPathwayTime self) = Ok r4
    /\ ValidateBeforeAdd self problems
       = (Ok (r1 && r2 && r3 && r4),
          problems
          ++ reports_of (ValidateFromStopIdIsPresent self)
          ++ reports_of (ValidateToStopIdIsPresent self)
          ++ reports_of (ValidatePathwayMode self)
          ++ reports_of (ValidateMinimumPathwayTime self)).
Proof.
  destruct (ValidateFromStopIdIsPresent_returns self) as [r1 H1].
  destruct (ValidateToStopIdIsPresent_returns self) as [r2 H2].
  destruct (ValidatePathwayMode_returns self) as [r3 H3].
  destruct (ValidateMinimumPathwayTime_returns self) as [r4 H4].
  exists r1, r2, r3, r4. repeat (split; [assumption|]).
  unfold ValidateBeforeAdd.
  rewrite (bind_Ok _ _ _ _ _
    (appends_run _ _ problems (ValidateFromStopIdIsPresent_appends self) H1)).
  rewrite (bind_Ok _ _ _ _ _
    (appends_run _ _ _ (ValidateToStopIdIsPresent_appends self) H2)).
  rewrite (bind_Ok _ _ _ _ _
    (appends_run _ _ _ (ValidatePathwayMode_appends self) H3)).
  rewrite (bind_Ok _ _ _ _ _
    (appends_run _ _ _ (ValidateMinimumPathwayTime_appends self) H4)).
  unfold ret. rewrite <- !app_assoc. f_equal. f_equal.
  by destruct r1, r2, r3, r4.
Qed.

Lemma ValidateBeforeAdd_returns self problems :
  exists ok problems', ValidateBeforeAdd self problems = (Ok ok, problems').
Proof.
  destruct (ValidateFromStopIdIsPresent_returns self) as [r1 H1].
  destruct (ValidateToStopIdIsPresent_returns self) as [r2 H2].
  destruct (ValidatePathwayMode_returns self) as [r3 H3].
  destruct (ValidateMinimumPathwayTime_returns self) as [r4 H4].
  unfold ValidateBeforeAdd.
  rewrite (bind_Ok _ _ _ _ _
    (appends_run _ _ problems (ValidateFromStopIdIsPresent_appends self) H1)).
  rewrite (bind_Ok _ _ _ _ _
    (appends_run _ _ _ (ValidateToStopIdIsPresent_appends self) H2)).
  rewrite (bind_Ok _ _ _ _ _
    (appends_run _ _ _ (ValidatePathwayMode_appends self) H3)).
  rewrite (bind_Ok _ _ _ _ _
    (appends_run _ _ _ (ValidateMinimumPathwayTime_appends self) H4)).
  by eexists _, _.
Qed.

End Phases.

(** All four checks fail on one record, and all four report. *)
Example ValidateBeforeAdd_all_wrong :
  ValidateBeforeAdd (H := sample_util) pathway_all_wrong []
  = (Ok false,
     [MissingValue "from_stop_id";
      MissingValue "to_stop_id";
      InvalidValue "pathway_mode" (VInt 9) None TYPE_ERROR;
      MinimumPathwayTimeSetWithInvalidPathwayMode (VInt 9);
      InvalidValue "traversal_time" (VStr "abc")
        (Some "If present, this field should contain an integer value.")
        TYPE_ERROR]).
Proof. vm_compute. reflexivity. Qed.

Section Orchestration.
Context `{Util}.

Lemma ValidateFromStopIdIsValid_run self schedule problems :
  _schedule self = Some schedule ->
  ValidateFromStopIdIsValid self problems
  = match stops_get (stops schedule) (from_stop_id self) with
    | Some _ => (Ok true, problems)
    | None =>
        (Ok false,
         problems ++ [InvalidValue "from_stop_id" (from_stop_id self) None TYPE_ERROR])
    end.
Proof.
  intros Hs. unfold ValidateFromStopIdIsValid, schedule_stops. rewrite Hs.
  unfold bind, ret at 1. 
  destruct (stops_get (stops schedule) (from_stop_id self)); reflexivity.
Qed.

Lemma ValidateToStopIdIsValid_run self schedule problems :
  _schedule self = Some schedule ->
  ValidateToStopIdIsValid self problems
  = match stops_get (stops schedule) (to_stop_id self) with
    | Some _ => (Ok true, problems)
    | None =>
        (Ok false,
         problems ++ [InvalidValue "to_stop_id" (to_stop_id self) None TYPE_ERROR])
    end.
Proof.
  intros Hs. unfold ValidateToStopIdIsValid, schedule_stops. rewrite Hs.
  unfold bind, ret at 1.
  destruct (stops_get (stops schedule) (to_stop_id self)); reflexivity.
Qed.

(** What the post-registration phase does on an attached record. *)
Lemma ValidateAfterAdd_run self schedule problems :
  _schedule self = Some schedule ->
  ValidateAfterAdd self problems
  = match stops_get (stops schedule) (from_stop_id self),
          stops_get (stops schedule) (to_stop_id self) with
    | Some _, Some _ =>
        bind (ValidatePathwayDistance self)
             (fun _ => ValidatePathwayWalkingTime self) problems
    | from_stop, to_stop =>
        (Ok tt,
         problems
         ++ match from_stop with
            | Some _ => []
            | None => [InvalidValue "from_stop_id" (from_stop_id self) None TYPE_ERROR]
            end
         ++ match to_stop with
            | Some _ => []
            | None => [InvalidValue "to_stop_id" (to_stop_id self) None TYPE_ERROR]
            end)
    end.
Proof.
  intros Hs. unfold ValidateAfterAdd.
  unfold bind at 1. rewrite (ValidateFromStopIdIsValid_run _ _ _ Hs).
  destruct (stops_get (stops schedule) (from_stop_id self)) as [a|];
    unfold bind at 1; rewrite (ValidateToStopIdIsValid_run _ _ _ Hs);
    destruct (stops_get (stops schedule) (to_stop_id self)) as [b|];
    simpl; unfold ret; rewrite <- ?app_assoc, ?app_nil_r; reflexivity.
Qed.

(** C6: [Validate] runs the post-registration phase exactly when
    [ValidateBeforeAdd] succeeded and the record is attached.  In that phase
    both resolvability checks run, and the distance and walking-time checks
    run exactly when both stop ids resolve.  On a record that is not
    attached the phase, which would fail at its first registry lookup, is
    not run. *)
Theorem Validate_phases self problems ok problems1 :
  ValidateBeforeAdd self problems = (Ok ok, problems1) ->
  (forall schedule, ok = true -> _schedule self = Some schedule ->
     Validate self problems = ValidateAfterAdd self problems1)
  /\ (ok = false \/ _schedule self = None ->
     Validate self problems = (Ok tt, problems1))
  /\ (forall schedule, _schedule self = Some schedule ->
     let from_stop := stops_get (stops schedule) (from_stop_id self) in
     let to_stop := stops_get (stops schedule) (to_stop_id self) in
     let unresolved :=
       match from_stop with
       | Some _ => []
       | None => [InvalidValue "from_stop_id" (from_stop_id self) None TYPE_ERROR]
       end
       ++ match to_stop with
          | Some _ => []
          | None => [InvalidValue "to_stop_id" (to_stop_id self) None TYPE_ERROR]
          end in
     (is_Some from_stop /\ is_Some to_stop ->
        ValidateAfterAdd self problems1
        = bind (ValidatePathwayDistance self)
               (fun _ => ValidatePathwayWalkingTime self) problems1)
     /\ (~ (is_Some from_stop /\ is_Some to_stop) ->
        ValidateAfterAdd self problems1 = (Ok tt, problems1 ++ unresolved)
        /\ unresolved <> []))
  /\ (_schedule self = None ->
     fst (ValidateAfterAdd self problems1) = Raise AttributeError).
Proof.
  intros Hb. split; [|split; [|split]].
  - intros schedule -> Hs. unfold Validate.
    rewrite (bind_Ok _ _ _ _ _ Hb). unfold attached. by rewrite Hs.
  - intros Hskip. unfold Validate. rewrite (bind_Ok _ _ _ _ _ Hb).
    destruct Hskip as [-> | Hs]; [done|].
    unfold attached. rewrite Hs. by rewrite andb_false_r.
  - intros schedule Hs from_stop to_stop unresolved.
    rewrite (ValidateAfterAdd_run _ _ _ Hs).
    subst unresolved. fold from_stop to_stop.
    destruct from_stop as [a|], to_stop as [b|]; split;
      try (intros [[? ?] [? ?]]; done);
      try (intros Hn; exfalso; apply Hn; split; by eexists);
      try (intros _; split; [reflexivity | discriminate]);
      try (intros _; reflexivity).
  - intros Hs. unfold ValidateAfterAdd, ValidateFromStopIdIsValid, schedule_stops.
    rewrite Hs. reflexivity.
Qed.

End Orchestration.

Lemma Validate_phases_witness :
  Validate (H := sample_util) pathway_all_wrong []
  = (Ok tt, snd (ValidateBeforeAdd (H := sample_util) pathway_all_wrong []))
  /\ Validate (H := sample_util) (pathway_X_Y VNone) []
     = ValidateAfterAdd (H := sample_util) (pathway_X_Y VNone) []
  /\ ValidateAfterAdd (H := sample_util) (pathway_X_Y VNone) []
     = (Ok tt,
        [InvalidValue "from_stop_id" (VStr "X") None TYPE_ERROR;
         InvalidValue "to_stop_id" (VStr "Y") None TYPE_ERROR]).
Proof.
  split; [|split].
  - refine (proj1 (proj2 (Validate_phases (H := sample_util) pathway_all_wrong []
              false _ _)) _).
    + vm_compute. reflexivity.
    + left. reflexivity.
  - refine (proj1 (Validate_phases (H := sample_util) (pathway_X_Y VNone) []
              true [] _) (stops_apart 500) _ _).
    + vm_compute. reflexivity.
    + reflexivity.
    + reflexivity.
  - refine (proj1 (proj2 (proj1 (proj2 (proj2
              (Validate_phases (H := sample_util) (pathway_X_Y VNone) []
                 true [] _))) (stops_apart 500) _) _)).
    + vm_compute. reflexivity.
    + reflexivity.
    + vm_compute. intros [[x Hx] _]. discriminate Hx.
Defined.

(** ** The walking-speed arithmetic inside [Validate] *)

Section Safety.
Context `{Util}.

Lemma ValidateMinimumPathwayTime_true_integer self :
  result_of (ValidateMinimumPathwayTime self) = Ok true ->
  IsEmpty (traversal_time self) = false ->
  exists t, traversal_time self = VInt t.
Proof.
  unfold result_of, ValidateMinimumPathwayTime. intros Hr He. rewrite He in Hr.
  simpl in Hr.
  destruct (traversal_time self) as [|s|t]; [| |by exists t];
    destruct (negb (py_eq (pathway_mode self) (VInt 2)));
    unfold bind, report, ret in Hr; simpl in Hr; discriminate Hr.
Qed.

Lemma ValidateBeforeAdd_true_time self problems problems1 :
  ValidateBeforeAdd self problems = (Ok true, problems1) ->
  result_of (ValidateMinimumPathwayTime self) = Ok true.
Proof.
  destruct (ValidateFromStopIdIsPresent_returns self) as [r1 H1].
  destruct (ValidateToStopIdIsPresent_returns self) as [r2 H2].
  destruct (ValidatePathwayMode_returns self) as [r3 H3].
  destruct (ValidateMinimumPathwayTime_returns self) as [r4 H4].
  unfold ValidateBeforeAdd.
  rewrite (bind_Ok _ _ _ _ _
    (appends_run _ _ problems (ValidateFromStopIdIsPresent_appends self) H1)).
  rewrite (bind_Ok _ _ _ _ _
    (appends_run _ _ _ (ValidateToStopIdIsPresent_appends self) H2)).
  rewrite (bind_Ok _ _ _ _ _
    (appends_run _ _ _ (ValidatePathwayMode_appends self) H3)).
  rewrite (bind_Ok _ _ _ _ _
    (appends_run _ _ _ (ValidateMinimumPathwayTime_appends self) H4)).
  unfold ret. intros [= Hand _]. rewrite H4.
  destruct r4; [reflexivity | discriminate Hand].
Qed.

Lemma ValidatePathwayWalkingTime_returns self a b problems :
  resolved_stops self = Some (a, b) ->
  (IsEmpty (traversal_time self) = false -> exists t, traversal_time self = VInt t) ->
  exists problems', ValidatePathwayWalkingTime self problems = (Ok tt, problems').
Proof.
  intros Hr Hint. unfold ValidatePathwayWalkingTime.
  destruct (IsEmpty (traversal_time self)); [by eexists|].
  destruct (Hint eq_refl) as [t Ht].
  rewrite Ht. unfold bind at 1. unfold lift at 1. simpl.
  destruct (t <? 0); [by eexists|].
  rewrite (bind_Ok _ _ _ _ _ (GetPathwayDistance_resolved _ _ _ _ Hr)).
  unfold bind, lift. simpl.
  destruct (Qltb _ _); by eexists.
Qed.

Lemma ValidatePathwayWalkingTime_with_agrees add self problems :
  (forall t n, 0 <= t -> add (VInt t) n = Ok (t + n)) ->
  (IsEmpty (traversal_time self) = false -> exists t, traversal_time self = VInt t) ->
  ValidatePathwayWalkingTime_with add self problems
  = ValidatePathwayWalkingTime self problems.
Proof.
  intros Hadd Hint.
  unfold ValidatePathwayWalkingTime_with, ValidatePathwayWalkingTime.
  destruct (IsEmpty (traversal_time self)); [reflexivity|].
  destruct (Hint eq_refl) as [t Ht]. rewrite Ht.
  unfold bind, lift. simpl.
  destruct (t <? 0) eqn:Hneg; [reflexivity|].
  destruct (GetPathwayDistance self problems) as [[d|e] problems'];
    [|reflexivity].
  by rewrite (Hadd t 120) by lia.
Qed.

(** C10: inside [Validate] the walking-speed arithmetic is applied to a
    non-negative integer only, and cannot fail.  [Validate] never raises;
    once [ValidateBeforeAdd] has succeeded a non-empty [traversal_time] is an
    integer; and [Validate] does not depend on what the addition of line 165
    does on a negative integer or on a value that is no integer: with any
    [add] that adds the non-negative integers, and does anything or fails
    elsewhere, it returns and reports the same. *)
Theorem Validate_walking_time_is_safe self problems :
  (exists problems', Validate self problems = (Ok tt, problems'))
  /\ (forall problems1,
        ValidateBeforeAdd self problems = (Ok true, problems1) ->
        IsEmpty (traversal_time self) = false ->
        exists t, traversal_time self = VInt t)
  /\ (forall add,
        (forall t n, 0 <= t -> add (VInt t) n = Ok (t + n)) ->
        Validate_with add self problems = Validate self problems).
Proof.
  split; [|split].
  - destruct (ValidateBeforeAdd_returns self problems) as (ok & problems1 & Hb).
    unfold Validate. rewrite (bind_Ok _ _ _ _ _ Hb).
    destruct ok; [|by eexists]. simpl. unfold attached.
    destruct (_schedule self) as [schedule|] eqn:Hs; [|by eexists].
    simpl. rewrite (ValidateAfterAdd_run _ _ _ Hs).
    destruct (stops_get (stops schedule) (from_stop_id self)) as [a|] eqn:Ha;
      destruct (stops_get (stops schedule) (to_stop_id self)) as [b|] eqn:Hb';
      try (by eexists).
    assert (Hr : resolved_stops self = Some (a, b)).
    { unfold resolved_stops. by rewrite Hs, Ha, Hb'. }
    unfold bind. rewrite (ValidatePathwayDistance_resolved _ _ _ _ Hr).
    apply (ValidatePathwayWalkingTime_returns _ _ _ _ Hr).
    apply ValidateMinimumPathwayTime_true_integer.
    by apply (ValidateBeforeAdd_true_time _ _ _ Hb).
  - intros problems1 Hb He.
    exact (ValidateMinimumPathwayTime_true_integer self
             (ValidateBeforeAdd_true_time _ _ _ Hb) He).
  - intros add Hadd.
    destruct (ValidateBeforeAdd_returns self problems) as (ok & problems1 & Hb).
    unfold Validate_with, Validate. rewrite !(bind_Ok _ _ _ _ _ Hb).
    destruct ok; [|reflexivity]. simpl.
    destruct (attached self); [|reflexivity].
    unfold ValidateAfterAdd_with, ValidateAfterAdd.
    unfold bind at 1 4.
    destruct (ValidateFromStopIdIsValid self problems1) as [[r1|e] problems2];
      [|reflexivity].
    unfold bind at 1 3.
    destruct (ValidateToStopIdIsValid self problems2) as [[r2|e] problems3];
      [|reflexivity].
    destruct (r2 && (r1 && true)); [|reflexivity].
    unfold bind.
    destruct (ValidatePathwayDistance self problems3) as [[[]|e] problems4];
      [|reflexivity].
    apply (ValidatePathwayWalkingTime_with_agrees add self problems4 Hadd).
    apply ValidateMinimumPathwayTime_true_integer.
    by apply (ValidateBeforeAdd_true_time _ _ _ Hb).
Qed.

End Safety.

(** On its own [ValidatePathwayWalkingTime] does fail on a time that is no
    integer; inside [Validate] the failed pre-registration phase keeps it
    from running. *)
Example ValidatePathwayWalkingTime_raises_on_text :
  ValidatePathwayWalkingTime (H := sample_util)
    (pathway_A_B (Some (stops_apart 500)) (VInt 2) (VStr "abc")) []
  = (Raise TypeError, [])
  /\ Validate (H := sample_util)
       (pathway_A_B (Some (stops_apart 500)) (VInt 2) (VStr "abc")) []
     = (Ok tt,
        [InvalidValue "traversal_time" (VStr "abc")
           (Some "If present, this field should contain an integer value.")
           TYPE_ERROR]).
Proof. split; vm_compute; reflexivity. Qed.

Lemma add_nonneg_only_adds t n :
  0 <= t -> add_nonneg_only (VInt t) n = Ok (t + n).
Proof.
  intros Ht. unfold add_nonneg_only. destruct (Z.ltb_spec t 0) as [Hlt|_].
  - exfalso. exact (Zlt_not_le _ _ Hlt Ht).
  - reflexivity.
Defined.

Lemma Validate_walking_time_is_safe_witness :
  Validate_with (H := sample_util) add_nonneg_only
    (pathway_A_B (Some (stops_apart 5001)) (VInt 2) (VInt (-5))) []
  = Validate (H := sample_util)
      (pathway_A_B (Some (stops_apart 5001)) (VInt 2) (VInt (-5))) []
  /\ exists t,
       traversal_time (pathway_A_B (Some (stops_apart 500)) (VInt 2) (VInt 100))
       = VInt t.
Proof.
  split.
  - exact (proj2 (proj2 (Validate_walking_time_is_safe (H := sample_util)
             (pathway_A_B (Some (stops_apart 5001)) (VInt 2) (VInt (-5))) []))
             add_nonneg_only add_nonneg_only_adds).
  - refine (proj1 (proj2 (Validate_walking_time_is_safe (H := sample_util)
              (pathway_A_B (Some (stops_apart 500)) (VInt 2) (VInt 100)) []))
              [] _ _).
    + vm_compute. reflexivity.
    + vm_compute. reflexivity.
Defined.

(** The strict addition does fail on a negative time when it is reached: the
    early return of line 153 is what keeps [Validate] from reaching it. *)
Example add_nonneg_only_fails_on_negative :
  add_nonneg_only (VInt (-5)) 120 = Raise ValueError
  /\ Validate_with (H := sample_util) add_nonneg_only
       (pathway_A_B (Some (stops_apart 5001)) (VInt 2) (VInt (-5))) []
     = (Ok tt,
        [InvalidValue "traversal_time" (VInt (-5))
           (Some "This field cannot contain a negative value.") TYPE_ERROR;
         PathwayDistanceTooBig (VStr "A") (VStr "B") (5001 # 1) TYPE_WARNING]).
Proof. split; vm_compute; reflexivity. Qed.

(** ** Construction and normalisation *)

Lemma getattr_setattr_eq self name v : getattr (setattr self name v) name = v.
Proof. unfold getattr, setattr. simpl. by rewrite lookup_insert_eq. Qed.

Lemma getattr_setattr_ne self name name' v :
  name <> name' -> getattr (setattr self name v) name' = getattr self name'.
Proof. intros Hne. unfold getattr, setattr. simpl. by rewrite lookup_insert_ne. Qed.

Lemma py_in_blank (v : value) :
  py_in v [VStr ""; VNone] = true <-> v = VNone \/ v = VStr "".
Proof.
  unfold py_in, py_eq. simpl. rewrite !orb_true_iff, !bool_decide_eq_true.
  split; [intros [?|[?|?]] | intros [?|?]]; auto; done.
Qed.

Lemma try_except_Ok {A} (m : result A) (h a : A) :
  try_except_TypeError_ValueError m h = Ok a ->
  m = Ok a \/ (exists e, m = Raise e) /\ a = h.
Proof.
  destruct m as [x|[]]; simpl; intros [= <-]; eauto.
Qed.

Section ConstructionFacts.
Context `{Util}.

(* The mode a record holds after lines 42-49, by the case the code takes on
   the mode it was given. *)
Local Abbreviation normalized_mode given :=
  (if py_in given [VStr ""; VNone] then VInt 2
   else match NonNegIntStringToInt given with
        | Ok z => VInt z
        | Raise _ => given
        end).

Lemma normalize_pathway_mode_Ok self self' :
  normalize_pathway_mode self = Ok self' ->
  pathway_mode self' = normalized_mode (pathway_mode self)
  /\ _schedule self' = _schedule self.
Proof.
  unfold normalize_pathway_mode, pathway_mode.
  destruct (py_in (getattr self "pathway_mode") [VStr ""; VNone]).
  - intros [= <-]. by rewrite getattr_setattr_eq.
  - destruct (NonNegIntStringToInt (getattr self "pathway_mode")) as [z|e].
    + simpl. intros [= <-]. by rewrite getattr_setattr_eq.
    + intros [Hm | [_ ->]]%try_except_Ok; [discriminate Hm | done].
Qed.

Lemma normalize_traversal_time_Ok self self' :
  normalize_traversal_time self = Ok self' ->
  pathway_mode self' = pathway_mode self /\ _schedule self' = _schedule self.
Proof.
  unfold normalize_traversal_time, pathway_mode.
  destruct (hasattr self "traversal_time").
  - destruct (NonNegIntStringToInt (traversal_time self)) as [z|e].
    + simpl. intros [= <-]. by rewrite getattr_setattr_ne.
    + intros [Hm | [_ ->]]%try_except_Ok; [discriminate Hm | done].
  - intros [= <-]. by rewrite getattr_setattr_ne.
Qed.

Lemma init_Ok schedule pid from to mode bidi time field_dict self calls :
  __init__ schedule pid from to mode bidi time field_dict = Ok (self, calls) ->
  pathway_mode self
  = normalized_mode
      (getattr (assign_fields pid from to mode bidi time field_dict) "pathway_mode")
  /\ calls = match schedule with
             | Some schedule => [AddPathwayObject schedule self None]
             | None => []
             end.
Proof.
  unfold __init__.
  destruct (normalize_pathway_mode _) as [self1|e] eqn:H1; [|done].
  destruct (normalize_traversal_time self1) as [self2|e] eqn:H2; [|done].
  apply normalize_pathway_mode_Ok in H1 as [Hm1 _].
  apply normalize_traversal_time_Ok in H2 as [Hm2 _].
  intros Hinit. assert (self = self2) as -> by (destruct schedule; congruence).
  split; [by rewrite Hm2, Hm1|].
  destruct schedule; congruence.
Qed.

Section ParseFailures.
(** The parse fails with one of the two exceptions the constructor catches. *)
Hypothesis parse_failure : forall v e,
  NonNegIntStringToInt v = Raise e -> e = TypeError \/ e = ValueError.

Lemma try_except_parse {A} v (f : Z -> A) (h : A) :
  exists a,
    try_except_TypeError_ValueError
      (match NonNegIntStringToInt v with
       | Ok z => Ok (f z)
       | Raise e => Raise e
       end) h = Ok a.
Proof.
  destruct (NonNegIntStringToInt v) as [z|e] eqn:E; [by eexists|].
  destruct (parse_failure v e E) as [-> | ->]; by eexists.
Qed.

Lemma init_returns schedule pid from to mode bidi time field_dict :
  exists self calls,
    __init__ schedule pid from to mode bidi time field_dict = Ok (self, calls).
Proof.
  unfold __init__.
  assert (H1 : exists self1,
    normalize_pathway_mode
      (assign_fields pid from to mode bidi time field_dict) = Ok self1).
  { unfold normalize_pathway_mode. destruct (py_in _ _); [by eexists|].
    apply try_except_parse. }
  destruct H1 as [self1 ->].
  assert (H2 : exists self2, normalize_traversal_time self1 = Ok self2).
  { unfold normalize_traversal_time. destruct (hasattr _ _); [|by eexists].
    apply try_except_parse. }
  destruct H2 as [self2 ->].
  destruct schedule; by eexists _, _.
Qed.

End ParseFailures.

Lemma assign_fields_given pid from to mode bidi time field_dict :
  let given :=
    getattr (assign_fields pid from to mode bidi time field_dict) "pathway_mode" in
  (forall d, field_dict = Some d -> d <> ∅ ->
     given = default VNone (d !! "pathway_mode"))
  /\ (field_dict = None \/ field_dict = Some ∅ -> given = mode).
Proof.
  simpl. split.
  - intros d -> Hd. unfold assign_fields.
    rewrite bool_decide_eq_false_2 by done.
    unfold getattr. simpl. by rewrite (right_id_L ∅ (∪)).
  - assert (Hexplicit : forall self,
      getattr (setattr (setattr (setattr (setattr (setattr (setattr self
        "pathway_id" pid) "from_stop_id" from) "to_stop_id" to)
        "pathway_mode" mode) "traversal_time" time)
        "is_bidirectional" bidi) "pathway_mode" = mode).
    { intros self. rewrite !getattr_setattr_ne by done.
      apply getattr_setattr_eq. }
    intros [-> | ->]; unfold assign_fields; [apply Hexplicit|].
    rewrite bool_decide_eq_true_2 by done. apply Hexplicit.
Qed.

End ConstructionFacts.

Section ConstructionTheorems.
Context `{Util}.

(** C7: in every construction, from explicit fields or from a field
    mapping, a [pathway_mode] that is absent, [None] or the empty string
    becomes 2; any other is given to the non-negative-integer parse, and
    when the parse fails the value stays as it was given.  No exception
    leaves the constructor. *)
Theorem init_normalizes_pathway_mode
    schedule pid from to mode bidi time field_dict :
  (forall v e, NonNegIntStringToInt v = Raise e -> e = TypeError \/ e = ValueError) ->
  let given :=
    getattr (assign_fields pid from to mode bidi time field_dict) "pathway_mode" in
  (forall d, field_dict = Some d -> d <> ∅ ->
     given = default VNone (d !! "pathway_mode"))
  /\ (field_dict = None \/ field_dict = Some ∅ -> given = mode)
  /\ exists self calls,
       __init__ schedule pid from to mode bidi time field_dict = Ok (self, calls)
       /\ (given = VNone \/ given = VStr "" -> pathway_mode self = VInt 2)
       /\ (given <> VNone -> given <> VStr "" ->
           match NonNegIntStringToInt given with
           | Ok z => pathway_mode self = VInt z
           | Raise _ => pathway_mode self = given
           end).
Proof.
  intros Hparse given.
  destruct (assign_fields_given pid from to mode bidi time field_dict) as [Hd He].
  split; [exact Hd|]. split; [exact He|].
  destruct (init_returns Hparse schedule pid from to mode bidi time field_dict)
    as (self & calls & Hinit).
  exists self, calls. split; [exact Hinit|].
  apply init_Ok in Hinit as (Hm & _). fold given in Hm. rewrite Hm.
  split.
  - intros Hblank%py_in_blank. by rewrite Hblank.
  - intros Hn He'. destruct (py_in given [VStr ""; VNone]) eqn:E.
    + apply py_in_blank in E as [?|?]; done.
    + by destruct (NonNegIntStringToInt given).
Qed.

(** C8, as the code has it: after every construction [pathway_mode] is the
    default 2, or the non-negative integer the parse returned for the given
    value, whatever its size, or the given value itself when the parse
    failed; it is never [None] and never the empty string. *)
Theorem init_pathway_mode_invariant
    schedule pid from to mode bidi time field_dict self calls :
  (forall v z, NonNegIntStringToInt v = Ok z -> 0 <= z) ->
  __init__ schedule pid from to mode bidi time field_dict = Ok (self, calls) ->
  let given :=
    getattr (assign_fields pid from to mode bidi time field_dict) "pathway_mode" in
  ((given = VNone \/ given = VStr "") /\ pathway_mode self = VInt 2
   \/ (exists z, NonNegIntStringToInt given = Ok z /\ 0 <= z
                 /\ pathway_mode self = VInt z)
   \/ (exists e, NonNegIntStringToInt given = Raise e)
      /\ pathway_mode self = given)
  /\ pathway_mode self <> VNone
  /\ pathway_mode self <> VStr "".
Proof.
  intros Hnonneg Hinit given.
  apply init_Ok in Hinit as (Hm & _). fold given in Hm. rewrite Hm.
  destruct (py_in given [VStr ""; VNone]) eqn:E.
  - apply py_in_blank in E. repeat split; [by left | done | done].
  - assert (Hn : given <> VNone /\ given <> VStr "").
    { split; intros Heq;
        (assert (py_in given [VStr ""; VNone] = true) as E'
           by (apply py_in_blank; auto)); congruence. }
    destruct (NonNegIntStringToInt given) as [z|e] eqn:Ez.
    + repeat split; [|done|done]. right. left. exists z.
      repeat split. by apply (Hnonneg given).
    + destruct Hn. repeat split; [|done|done]. right. right.
      split; [by exists e | done].
Qed.

(** C9, as the code has it: constructing with a registry makes one
    [AddPathwayObject] call on that registry with the constructed record and
    no reporter argument; [AddToSchedule(registry, reporter)] on the same
    record makes the call on the same registry with the same record and
    with the reporter. *)
Theorem init_registers_without_reporter
    schedule pid from to mode bidi time field_dict self calls problems :
  __init__ (Some schedule) pid from to mode bidi time field_dict = Ok (self, calls) ->
  __init__ None pid from to mode bidi time field_dict = Ok (self, [])
  /\ calls = [AddPathwayObject schedule self None]
  /\ AddToSchedule self schedule problems
     = [AddPathwayObject schedule self (Some problems)].
Proof.
  intros Hinit. pose proof (init_Ok _ _ _ _ _ _ _ _ _ _ Hinit) as (_ & Hcalls).
  split; [|split; [exact Hcalls | reflexivity]].
  unfold __init__ in *.
  destruct (normalize_pathway_mode _) as [self1|e]; [|done].
  destruct (normalize_traversal_time self1) as [self2|e]; [|done].
  congruence.
Qed.

End ConstructionTheorems.

Lemma sample_parse_failure v e :
  NonNegIntStringToInt (Util := sample_util) v = Raise e ->
  e = TypeError \/ e = ValueError.
Proof.
  simpl. unfold sample_NonNegIntStringToInt.
  destruct v as [|[|c s]|z]; try (intros [= <-]; auto).
  destruct (digits_to_Z _ _); intros [= <-]; auto.
Defined.

Lemma digits_to_Z_nonneg s : forall acc z, 0 <= acc -> digits_to_Z s acc = Some z -> 0 <= z.
Proof.
  induction s as [|c s IH]; simpl; intros acc z Hacc.
  - intros [= <-]. exact Hacc.
  - destruct (is_digit c) eqn:Hc; [|discriminate].
    apply IH. unfold is_digit in Hc.
    apply andb_true_iff in Hc as [Hlo _]. apply Nat.leb_le in Hlo. lia.
Defined.

Lemma sample_parse_nonneg v z :
  NonNegIntStringToInt (Util := sample_util) v = Ok z -> 0 <= z.
Proof.
  simpl. unfold sample_NonNegIntStringToInt.
  destruct v as [|[|c s]|z']; try discriminate.
  destruct (digits_to_Z _ _) as [z'|] eqn:E; [|discriminate].
  intros [= <-]. by apply (digits_to_Z_nonneg _ 0 z' ltac:(lia) E).
Defined.

Lemma init_normalizes_pathway_mode_witness :
  exists self calls,
    __init__ (H := sample_util) None (VStr "p1") (VStr "A") (VStr "B")
      (VStr "") VNone VNone None = Ok (self, calls)
    /\ pathway_mode self = VInt 2.
Proof.
  destruct (init_normalizes_pathway_mode (H := sample_util) None
              (VStr "p1") (VStr "A") (VStr "B") (VStr "") VNone VNone None
              sample_parse_failure)
    as (_ & _ & self & calls & Hinit & Hblank & _).
  exists self, calls. split; [exact Hinit|].
  apply Hblank. right. vm_compute. reflexivity.
Defined.

Lemma init_pathway_mode_invariant_witness :
  __init__ (H := sample_util) None (VStr "p1") (VStr "A") (VStr "B")
    (VStr "4") VNone VNone None = Ok (constructed_A_B (VInt 4), [])
  /\ pathway_mode (constructed_A_B (VInt 4)) <> VNone
  /\ pathway_mode (constructed_A_B (VInt 4)) <> VStr "".
Proof.
  assert (Hinit : __init__ (H := sample_util) None (VStr "p1") (VStr "A")
                    (VStr "B") (VStr "4") VNone VNone None
                  = Ok (constructed_A_B (VInt 4), [])).
  { vm_compute. reflexivity. }
  split; [exact Hinit|].
  exact (proj2 (init_pathway_mode_invariant (H := sample_util) None
           (VStr "p1") (VStr "A") (VStr "B") (VStr "4") VNone VNone None
           _ [] sample_parse_nonneg Hinit)).
Defined.

(** C8 fails on the mode "9": the text parses, and the record holds 9, a
    parsed integer outside 1..7. *)
Lemma init_keeps_parsed_mode_9 :
  NonNegIntStringToInt (Util := sample_util) (VStr "9") = Ok 9
  /\ __init__ (H := sample_util) None (VStr "p1") (VStr "A") (VStr "B")
       (VStr "9") VNone VNone None = Ok (constructed_A_B (VInt 9), [])
  /\ pathway_mode (constructed_A_B (VInt 9)) = VInt 9
  /\ ~ (1 <= 9 <= 7).
Proof.
  split; [|split; [|split]].
  - vm_compute. reflexivity.
  - vm_compute. reflexivity.
  - vm_compute. reflexivity.
  - lia.
Qed.

Lemma init_registers_without_reporter_witness :
  __init__ (H := sample_util) None (VStr "p1") (VStr "A") (VStr "B")
    (VInt 2) VNone VNone None = Ok (constructed_A_B (VInt 2), [])
  /\ AddToSchedule (constructed_A_B (VInt 2)) (stops_apart 500) []
     = [AddPathwayObject (stops_apart 500) (constructed_A_B (VInt 2)) (Some [])].
Proof.
  refine ((fun thm => conj (proj1 thm) (proj2 (proj2 thm)))
            (init_registers_without_reporter (H := sample_util)
               (stops_apart 500) (VStr "p1") (VStr "A") (VStr "B") (VInt 2)
               VNone VNone None (constructed_A_B (VInt 2))
               [AddPathwayObject (stops_apart 500) (constructed_A_B (VInt 2)) None]
               [] _)).
  vm_compute. reflexivity.
Defined.

(** C9 fails on the arguments: the constructor's call has no reporter
    argument, the call of [AddToSchedule] has one. *)
Lemma init_call_differs_from_AddToSchedule :
  __init__ (H := sample_util) (Some (stops_apart 500)) (VStr "p1") (VStr "A")
    (VStr "B") (VInt 2) VNone VNone None
  = Ok (constructed_A_B (VInt 2),
        [AddPathwayObject (stops_apart 500) (constructed_A_B (VInt 2)) None])
  /\ AddToSchedule (constructed_A_B (VInt 2)) (stops_apart 500) []
     = [AddPathwayObject (stops_apart 500) (constructed_A_B (VInt 2)) (Some [])]
  /\ [AddPathwayObject (stops_apart 500) (constructed_A_B (VInt 2)) None]
     <> AddToSchedule (constructed_A_B (VInt 2)) (stops_apart 500) [].
Proof.
  split; [|split].
  - vm_compute. reflexivity.
  - reflexivity.
  - unfold AddToSchedule. intros Heq. discriminate Heq.
Qed.

(** ** The pre-registration checks, one by one *)

Section PreRegistration.
Context `{Util}.

Lemma reports_unchanged (problems extra : list problem) :
  problems ++ extra = problems <-> extra = [].
Proof.
  split; [|intros ->; by rewrite app_nil_r].
  intros Heq. apply (app_inv_head problems). by rewrite app_nil_r.
Qed.

Lemma ValidateFromStopIdIsPresent_run self problems :
  ValidateFromStopIdIsPresent self problems
  = (Ok (negb (IsEmpty (from_stop_id self))),
     problems ++ if IsEmpty (from_stop_id self)
                 then [MissingValue "from_stop_id"] else []).
Proof.
  unfold ValidateFromStopIdIsPresent.
  destruct (IsEmpty _); [reflexivity|]. unfold ret. by rewrite app_nil_r.
Qed.

Lemma ValidateToStopIdIsPresent_run self problems :
  ValidateToStopIdIsPresent self problems
  = (Ok (negb (IsEmpty (to_stop_id self))),
     problems ++ if IsEmpty (to_stop_id self)
                 then [MissingValue "to_stop_id"] else []).
Proof.
  unfold ValidateToStopIdIsPresent.
  destruct (IsEmpty _); [reflexivity|]. unfold ret. by rewrite app_nil_r.
Qed.

Lemma ValidatePathwayMode_run self problems :
  ValidatePathwayMode self problems
  = (Ok (IsEmpty (pathway_mode self) || py_in_range (pathway_mode self) 1 8),
     problems ++
     if IsEmpty (pathway_mode self) || py_in_range (pathway_mode self) 1 8
     then []
     else [InvalidValue "pathway_mode" (pathway_mode self) None TYPE_ERROR]).
Proof.
  unfold ValidatePathwayMode.
  destruct (IsEmpty (pathway_mode self)); simpl;
    [unfold ret; by rewrite app_nil_r|].
  destruct (pathway_mode self) as [|s|z]; simpl; try reflexivity.
  destruct ((1 <=? z) && (z <? 8)); simpl; [|reflexivity].
  unfold ret. by rewrite app_nil_r.
Qed.

Lemma py_in_range_spec (v : value) (lo hi : Z) :
  py_in_range v lo hi = true <-> exists z, v = VInt z /\ lo <= z < hi.
Proof.
  destruct v as [|s|z]; simpl.
  - split; [discriminate | intros (z & Hz & _); discriminate Hz].
  - split; [discriminate | intros (z & Hz & _); discriminate Hz].
  - rewrite andb_true_iff, Z.leb_le, Z.ltb_lt. split.
    + intros Hr. by exists z.
    + intros (z' & [= ->] & Hr). exact Hr.
Qed.

(** X1: [ValidatePathwayMode] accepts, silently, exactly a mode that is
    empty or an integer from 1 to 7; any other mode (0, 8, a text left over
    from a failed parse) is reported once as InvalidValue and rejected. *)
Theorem ValidatePathwayMode_spec self problems :
  let valid :=
    IsEmpty (pathway_mode self) = true
    \/ exists z, pathway_mode self = VInt z /\ 1 <= z <= 7 in
  (valid -> ValidatePathwayMode self problems = (Ok true, problems))
  /\ (~ valid ->
      ValidatePathwayMode self problems
      = (Ok false,
         problems ++ [InvalidValue "pathway_mode" (pathway_mode self) None TYPE_ERROR])).
Proof.
  intros valid. rewrite ValidatePathwayMode_run.
  destruct (IsEmpty (pathway_mode self) || py_in_range (pathway_mode self) 1 8)
    eqn:E.
  - split; [intros _; by rewrite app_nil_r|]. intros Hn. exfalso. apply Hn.
    apply orb_true_iff in E as [E|E]; [by left|right].
    apply py_in_range_spec in E as (z & Hz & Hr). exists z. split; [done|lia].
  - split; [|done]. intros Hv. exfalso.
    apply orb_false_iff in E as [E1 E2]. destruct Hv as [Hv|(z & Hz & Hr)].
    + congruence.
    + assert (py_in_range (pathway_mode self) 1 8 = true) as E3; [|congruence].
      apply py_in_range_spec. exists z. split; [done|lia].
Qed.

End PreRegistration.

Lemma ValidatePathwayMode_spec_witness :
  ValidatePathwayMode (H := sample_util) (pathway_A_B None (VInt 7) VNone) []
  = (Ok true, [])
  /\ ValidatePathwayMode (H := sample_util) (pathway_A_B None (VInt 8) VNone) []
     = (Ok false, [InvalidValue "pathway_mode" (VInt 8) None TYPE_ERROR])
  /\ ValidatePathwayMode (H := sample_util) (pathway_A_B None (VStr "lift") VNone) []
     = (Ok false, [InvalidValue "pathway_mode" (VStr "lift") None TYPE_ERROR]).
Proof.
  split; [|split].
  - refine (proj1 (ValidatePathwayMode_spec (H := sample_util)
              (pathway_A_B None (VInt 7) VNone) []) _).
    right. exists 7. split; [vm_compute; reflexivity | lia].
  - refine (proj2 (ValidatePathwayMode_spec (H := sample_util)
              (pathway_A_B None (VInt 8) VNone) []) _).
    intros [He | (z & Hz & Hr)].
    + vm_compute in He. discriminate He.
    + vm_compute in Hz. injection Hz as <-. lia.
  - refine (proj2 (ValidatePathwayMode_spec (H := sample_util)
              (pathway_A_B None (VStr "lift") VNone) []) _).
    intros [He | (z & Hz & Hr)].
    + vm_compute in He. discriminate He.
    + vm_compute in Hz. discriminate Hz.
Defined.

Section PreRegistrationPhase.
Context `{Util}.

(* What the minimum-pathway-time rule reports, by the branch it takes. *)
Local Abbreviation time_range_problems self t :=
  (if t <? 0 then
     [InvalidValue "traversal_time" (traversal_time self)
        (Some "This field cannot contain a negative value.") TYPE_ERROR]
   else if t >=? 24 * 3600 then
     [InvalidValue "traversal_time" (traversal_time self)
        (Some "The value is very large for a transfer time and most likely indicates an error.")
        TYPE_ERROR]
   else if t >=? 3 * 3600 then
     [InvalidValue "traversal_time" (traversal_time self)
        (Some "The value is large for a transfer time and most likely indicates an error.")
        TYPE_WARNING]
   else []).

Local Abbreviation time_problems self :=
  (if IsEmpty (traversal_time self) then []
   else
     (if py_eq (pathway_mode self) (VInt 2) then []
      else [MinimumPathwayTimeSetWithInvalidPathwayMode (pathway_mode self)])
     ++ match traversal_time self with
        | VInt t => time_range_problems self t
        | _ =>
            [InvalidValue "traversal_time" (traversal_time self)
               (Some "If present, this field should contain an integer value.")
               TYPE_ERROR]
        end).

Lemma ValidateMinimumPathwayTime_run self problems :
  ValidateMinimumPathwayTime self problems
  = (Ok (IsEmpty (traversal_time self) || isinstance_int (traversal_time self)),
     problems ++ time_problems self).
Proof.
  unfold ValidateMinimumPathwayTime.
  destruct (IsEmpty (traversal_time self)); simpl;
    [unfold ret; by rewrite app_nil_r|].
  destruct (py_eq (pathway_mode self) (VInt 2)); simpl;
    destruct (traversal_time self) as [|s|t]; simpl;
    unfold bind, report, ret; simpl; rewrite <- ?app_assoc; try reflexivity;
    destruct (t <? 0); try reflexivity;
    destruct (t >=? 24 * 3600); try reflexivity;
    destruct (t >=? 3 * 3600); try reflexivity;
    simpl; rewrite <- ?app_assoc, ?app_nil_r; reflexivity.
Qed.

Lemma ValidateBeforeAdd_run self problems :
  ValidateBeforeAdd self problems
  = (Ok (negb (IsEmpty (from_stop_id self))
         && negb (IsEmpty (to_stop_id self))
         && (IsEmpty (pathway_mode self) || py_in_range (pathway_mode self) 1 8)
         && (IsEmpty (traversal_time self) || isinstance_int (traversal_time self))),
     problems
     ++ (if IsEmpty (from_stop_id self) then [MissingValue "from_stop_id"] else [])
     ++ (if IsEmpty (to_stop_id self) then [MissingValue "to_stop_id"] else [])
     ++ (if IsEmpty (pathway_mode self) || py_in_range (pathway_mode self) 1 8
         then []
         else [InvalidValue "pathway_mode" (pathway_mode self) None TYPE_ERROR])
     ++ time_problems self).
Proof.
  unfold ValidateBeforeAdd.
  rewrite (bind_Ok _ _ _ _ _ (ValidateFromStopIdIsPresent_run self problems)).
  rewrite (bind_Ok _ _ _ _ _ (ValidateToStopIdIsPresent_run self _)).
  rewrite (bind_Ok _ _ _ _ _ (ValidatePathwayMode_run self _)).
  rewrite (bind_Ok _ _ _ _ _ (ValidateMinimumPathwayTime_run self _)).
  unfold ret. rewrite <- !app_assoc. f_equal. f_equal.
  destruct (negb (IsEmpty (from_stop_id self))),
           (negb (IsEmpty (to_stop_id self))),
           (IsEmpty (pathway_mode self) || py_in_range (pathway_mode self) 1 8),
           (IsEmpty (traversal_time self) || isinstance_int (traversal_time self));
    reflexivity.
Qed.

Lemma isinstance_int_spec (v : value) :
  isinstance_int v = true <-> exists z, v = VInt z.
Proof.
  destruct v as [|s|z]; simpl; split; try discriminate;
    try (intros [z' Hz]; discriminate Hz); eauto.
Qed.

Lemma mode_accepted self :
  IsEmpty (pathway_mode self) || py_in_range (pathway_mode self) 1 8 = true
  <-> IsEmpty (pathway_mode self) = true
      \/ exists z, pathway_mode self = VInt z /\ 1 <= z <= 7.
Proof.
  rewrite orb_true_iff, py_in_range_spec. split.
  - intros [?|(z & ? & ?)]; [by left|right]. exists z. split; [done|lia].
  - intros [?|(z & ? & ?)]; [by left|right]. exists z. split; [done|lia].
Qed.

Lemma before_add_result_true self :
  negb (IsEmpty (from_stop_id self))
  && negb (IsEmpty (to_stop_id self))
  && (IsEmpty (pathway_mode self) || py_in_range (pathway_mode self) 1 8)
  && (IsEmpty (traversal_time self) || isinstance_int (traversal_time self))
  = true
  <-> IsEmpty (from_stop_id self) = false
      /\ IsEmpty (to_stop_id self) = false
      /\ (IsEmpty (pathway_mode self) = true
          \/ exists z, pathway_mode self = VInt z /\ 1 <= z <= 7)
      /\ (IsEmpty (traversal_time self) = true
          \/ exists t, traversal_time self = VInt t).
Proof.
  rewrite <- mode_accepted, <- isinstance_int_spec, <- orb_true_iff.
  rewrite <- !negb_true_iff, !andb_true_iff. tauto.
Qed.

(** X2: [ValidateBeforeAdd] returns success exactly when both stop ids are
    non-empty, the mode is empty or an integer from 1 to 7, and the
    traversal time is empty or an integer.  A negative or very large time,
    or a time set with a mode other than 2, does not block. *)
Theorem ValidateBeforeAdd_success self problems :
  fst (ValidateBeforeAdd self problems) = Ok true
  <-> IsEmpty (from_stop_id self) = false
      /\ IsEmpty (to_stop_id self) = false
      /\ (IsEmpty (pathway_mode self) = true
          \/ exists z, pathway_mode self = VInt z /\ 1 <= z <= 7)
      /\ (IsEmpty (traversal_time self) = true
          \/ exists t, traversal_time self = VInt t).
Proof.
  rewrite ValidateBeforeAdd_run. simpl. rewrite <- before_add_result_true.
  split; [intros [= ->]; reflexivity | intros ->; reflexivity].
Qed.

Lemma time_problems_nil self :
  time_problems self = []
  <-> IsEmpty (traversal_time self) = true
      \/ pathway_mode self = VInt 2
         /\ exists t, traversal_time self = VInt t /\ 0 <= t < 3 * 3600.
Proof.
  destruct (IsEmpty (traversal_time self)); [split; auto|].
  rewrite app_nil. unfold py_eq.
  destruct (bool_decide_reflect (pathway_mode self = VInt 2)) as [Hm|Hm].
  - destruct (traversal_time self) as [|s|t].
    + split; [intros [_ ?]; done | intros [?|[_ (t & ? & _)]]; done].
    + split; [intros [_ ?]; done | intros [?|[_ (t & ? & _)]]; done].
    + split.
      * intros [_ Ht]. right. split; [done|]. exists t. split; [done|].
        destruct (t <? 0) eqn:E1; [done|].
        destruct (t >=? 24 * 3600) eqn:E2; [done|].
        destruct (t >=? 3 * 3600) eqn:E3; [done|]. lia.
      * intros [?|[_ (t' & [= <-] & Ht)]]; [done|]. split; [done|].
        replace (t <? 0) with false by lia.
        replace (t >=? 24 * 3600) with false by lia.
        by replace (t >=? 3 * 3600) with false by lia.
  - split; [intros [? _]; done | intros [?|[? _]]; done].
Qed.

Lemma before_add_problems_nil self :
  (if IsEmpty (from_stop_id self) then [MissingValue "from_stop_id"] else [])
  ++ (if IsEmpty (to_stop_id self) then [MissingValue "to_stop_id"] else [])
  ++ (if IsEmpty (pathway_mode self) || py_in_range (pathway_mode self) 1 8
      then []
      else [InvalidValue "pathway_mode" (pathway_mode self) None TYPE_ERROR])
  ++ time_problems self = []
  <-> IsEmpty (from_stop_id self) = false
      /\ IsEmpty (to_stop_id self) = false
      /\ (IsEmpty (pathway_mode self) = true
          \/ exists z, pathway_mode self = VInt z /\ 1 <= z <= 7)
      /\ (IsEmpty (traversal_time self) = true
          \/ pathway_mode self = VInt 2
             /\ exists t, traversal_time self = VInt t /\ 0 <= t < 3 * 3600).
Proof.
  rewrite !app_nil, <- mode_accepted, time_problems_nil.
  destruct (IsEmpty (from_stop_id self)), (IsEmpty (to_stop_id self)),
    (IsEmpty (pathway_mode self) || py_in_range (pathway_mode self) 1 8);
    split; intros (? & ? & ? & ?); try done; repeat split; done.
Qed.

(** X3: [ValidateBeforeAdd] reports nothing exactly when both stop ids are
    non-empty, the mode is empty or an integer from 1 to 7, and the
    traversal time is empty or else the mode is 2 and the time an integer
    with [0 <= t < 3*3600]. *)
Theorem ValidateBeforeAdd_silent self problems :
  snd (ValidateBeforeAdd self problems) = problems
  <-> IsEmpty (from_stop_id self) = false
      /\ IsEmpty (to_stop_id self) = false
      /\ (IsEmpty (pathway_mode self) = true
          \/ exists z, pathway_mode self = VInt z /\ 1 <= z <= 7)
      /\ (IsEmpty (traversal_time self) = true
          \/ pathway_mode self = VInt 2
             /\ exists t, traversal_time self = VInt t /\ 0 <= t < 3 * 3600).
Proof.
  rewrite ValidateBeforeAdd_run. simpl. rewrite reports_unchanged.
  apply before_add_problems_nil.
Qed.

End PreRegistrationPhase.

Lemma ValidateBeforeAdd_success_witness :
  fst (ValidateBeforeAdd (H := sample_util)
         (pathway_A_B None (VInt 1) (VInt (-5))) []) = Ok true.
Proof.
  apply (proj2 (ValidateBeforeAdd_success (H := sample_util)
                  (pathway_A_B None (VInt 1) (VInt (-5))) [])).
  repeat split; try (vm_compute; reflexivity).
  - right. exists 1. split; [vm_compute; reflexivity | lia].
  - right. exists (-5). vm_compute. reflexivity.
Defined.

Lemma ValidateBeforeAdd_silent_witness :
  snd (ValidateBeforeAdd (H := sample_util)
         (pathway_A_B None (VInt 2) (VInt 300)) []) = [].
Proof.
  apply (proj2 (ValidateBeforeAdd_silent (H := sample_util)
                  (pathway_A_B None (VInt 2) (VInt 300)) [])).
  repeat split; try (vm_compute; reflexivity).
  - right. exists 2. split; [vm_compute; reflexivity | lia].
  - right. split; [vm_compute; reflexivity|].
    exists 300. split; [vm_compute; reflexivity | lia].
Defined.

(** ** The post-registration checks called directly *)

Section PostRegistration.
Context `{Util}.

(** X4: [GetPathwayDistance] returns the distance of the two stops when the
    record is attached and both ids are keys of the stop collection.
    Otherwise it raises, AttributeError on a record that is not attached
    and KeyError on a missing stop id, and so does [ValidatePathwayDistance],
    without reporting anything. *)
Theorem GetPathwayDistance_spec self problems :
  (forall a b, resolved_stops self = Some (a, b) ->
     GetPathwayDistance self problems
     = (Ok (ApproximateDistanceBetweenStops a b), problems))
  /\ (_schedule self = None ->
      GetPathwayDistance self problems = (Raise AttributeError, problems)
      /\ ValidatePathwayDistance self problems = (Raise AttributeError, problems))
  /\ (forall schedule, _schedule self = Some schedule ->
      stops_get (stops schedule) (from_stop_id self) = None
      \/ stops_get (stops schedule) (to_stop_id self) = None ->
      GetPathwayDistance self problems = (Raise KeyError, problems)
      /\ ValidatePathwayDistance self problems = (Raise KeyError, problems)).
Proof.
  split; [|split].
  - intros a b Hr. by apply GetPathwayDistance_resolved.
  - intros Hs.
    assert (Hg : GetPathwayDistance self problems = (Raise AttributeError, problems)).
    { unfold GetPathwayDistance, schedule_stops. by rewrite Hs. }
    split; [exact Hg|]. unfold ValidatePathwayDistance, bind. by rewrite Hg.
  - intros schedule Hs Hmiss.
    assert (Hg : GetPathwayDistance self problems = (Raise KeyError, problems)).
    { unfold GetPathwayDistance, schedule_stops, stops_getitem, bind, ret, raise.
      rewrite Hs.
      destruct (stops_get (stops schedule) (from_stop_id self)) as [a|];
        [|reflexivity].
      destruct Hmiss as [Hm|Hm]; [discriminate Hm|]. by rewrite Hm. }
    split; [exact Hg|]. unfold ValidatePathwayDistance, bind. by rewrite Hg.
Qed.

(** X5: [ValidateAfterAdd] called on its own, on an attached record whose
    stops resolve and whose traversal time is a text that is not empty (what
    a failed parse leaves behind), reports what the distance check reports
    and then raises TypeError: the integer test of the pre-registration
    phase is what protects [Validate]. *)
Theorem ValidateAfterAdd_raises_on_text_time self a b s problems :
  resolved_stops self = Some (a, b) ->
  traversal_time self = VStr s ->
  IsEmpty (VStr s) = false ->
  exists problems',
    ValidatePathwayDistance self problems = (Ok tt, problems')
    /\ ValidateAfterAdd self problems = (Raise TypeError, problems').
Proof.
  intros Hr Ht He.
  pose proof (ValidatePathwayDistance_resolved self a b problems Hr) as Hd.
  simpl in Hd. eexists. split; [exact Hd|].
  destruct (resolved_stops_Some _ _ _ Hr) as (schedule & Hs & Ha & Hb).
  rewrite (ValidateAfterAdd_run _ _ _ Hs), Ha, Hb.
  unfold bind at 1. rewrite Hd.
  unfold ValidatePathwayWalkingTime. by rewrite Ht, He.
Qed.

End PostRegistration.

Lemma GetPathwayDistance_spec_witness :
  GetPathwayDistance (H := sample_util) (pathway_X_Y VNone) []
  = (Raise KeyError, [])
  /\ GetPathwayDistance (H := sample_util) (pathway_A_B None (VInt 2) VNone) []
     = (Raise AttributeError, []).
Proof.
  split.
  - refine (proj1 (proj2 (proj2 (GetPathwayDistance_spec (H := sample_util)
              (pathway_X_Y VNone) [])) (stops_apart 500) _ _)).
    + reflexivity.
    + left. vm_compute. reflexivity.
  - refine (proj1 (proj1 (proj2 (GetPathwayDistance_spec (H := sample_util)
              (pathway_A_B None (VInt 2) VNone) [])) _)).
    reflexivity.
Defined.

Lemma ValidateAfterAdd_raises_on_text_time_witness :
  exists problems',
    ValidatePathwayDistance (H := sample_util)
      (pathway_A_B (Some (stops_apart 3000)) (VInt 2) (VStr "abc")) []
    = (Ok tt, problems')
    /\ ValidateAfterAdd (H := sample_util)
         (pathway_A_B (Some (stops_apart 3000)) (VInt 2) (VStr "abc")) []
       = (Raise TypeError, problems').
Proof.
  apply (ValidateAfterAdd_raises_on_text_time (H := sample_util)
           (pathway_A_B (Some (stops_apart 3000)) (VInt 2) (VStr "abc"))
           {| stop_lat := 0; stop_lon := 0 |}
           {| stop_lat := 3000 # 111195; stop_lon := 0 |} "abc" []).
  - vm_compute. reflexivity.
  - vm_compute. reflexivity.
  - vm_compute. reflexivity.
Defined.

(** ** The whole of [Validate] *)

Section WholeValidate.
Context `{Util}.

Lemma ValidatePathwayWalkingTime_run self a b t problems :
  resolved_stops self = Some (a, b) ->
  traversal_time self = VInt t -> IsEmpty (VInt t) = false -> 0 <= t ->
  ValidatePathwayWalkingTime self problems
  = (Ok tt,
     problems ++
     if Qltb (inject_Z (t + 120))
             (ApproximateDistanceBetweenStops a b / FAST_WALKING_SPEED)
     then [PathwayWalkingSpeedTooFast (from_stop_id self) (to_stop_id self)
             (VInt t) (ApproximateDistanceBetweenStops a b)]
     else []).
Proof.
  intros Hr Ht He Hpos. unfold ValidatePathwayWalkingTime. rewrite Ht, He.
  unfold bind at 1. unfold lift at 1. simpl.
  replace (t <? 0) with false by lia.
  rewrite <- Ht.
  rewrite (bind_Ok _ _ _ _ _ (GetPathwayDistance_resolved _ _ _ _ Hr)).
  rewrite Ht. unfold bind, lift. simpl.
  destruct (Qltb _ _); [reflexivity|]. unfold ret. by rewrite app_nil_r.
Qed.

(** X6: a longer traversal time never brings the walking-speed warning: if
    [ValidatePathwayWalkingTime] is silent for a record with the
    non-negative integer time [t], it is silent for any record between the
    same two stops with a time [t' >= t]. *)
Theorem ValidatePathwayWalkingTime_monotone self self' a b t t' problems :
  resolved_stops self = Some (a, b) ->
  resolved_stops self' = Some (a, b) ->
  traversal_time self = VInt t -> IsEmpty (VInt t) = false ->
  traversal_time self' = VInt t' ->
  0 <= t <= t' ->
  snd (ValidatePathwayWalkingTime self problems) = problems ->
  snd (ValidatePathwayWalkingTime self' problems) = problems.
Proof.
  intros Hr Hr' Ht He Ht' Hle.
  rewrite (ValidatePathwayWalkingTime_run self a b t problems Hr Ht He)
    by lia.
  simpl. rewrite reports_unchanged.
  destruct (Qltb (inject_Z (t + 120)) _) eqn:E; [discriminate|]. intros _.
  destruct (IsEmpty (VInt t')) eqn:He'.
  - unfold ValidatePathwayWalkingTime. by rewrite Ht', He'.
  - rewrite (ValidatePathwayWalkingTime_run self' a b t' problems Hr' Ht' He')
      by lia.
    simpl. apply reports_unchanged.
    assert (E' : Qltb (inject_Z (t' + 120))
                   (ApproximateDistanceBetweenStops a b / FAST_WALKING_SPEED)
                 = false); [|by rewrite E'].
    apply Qltb_ge. apply Qltb_ge in E. intros Hlt. apply E.
    eapply Qle_lt_trans; [|exact Hlt].
    rewrite <- Zle_Qle. lia.
Qed.

Lemma ValidateFromStopIdIsValid_appends self :
  appends (ValidateFromStopIdIsValid self).
Proof.
  unfold ValidateFromStopIdIsValid, schedule_stops. appends_tac.
Qed.

Lemma ValidateToStopIdIsValid_appends self :
  appends (ValidateToStopIdIsValid self).
Proof.
  unfold ValidateToStopIdIsValid, schedule_stops. appends_tac.
Qed.

Lemma GetPathwayDistance_appends self : appends (GetPathwayDistance self).
Proof.
  unfold GetPathwayDistance, schedule_stops, stops_getitem. appends_tac.
Qed.

Lemma ValidatePathwayDistance_appends self :
  appends (ValidatePathwayDistance self).
Proof.
  unfold ValidatePathwayDistance.
  apply appends_bind; [apply GetPathwayDistance_appends|]. intros d.
  appends_tac.
Qed.

Lemma ValidatePathwayWalkingTime_appends self :
  appends (ValidatePathwayWalkingTime self).
Proof.
  unfold ValidatePathwayWalkingTime.
  destruct (IsEmpty _); [apply appends_ret|].
  apply appends_bind; [apply appends_lift|]. intros [|]; [apply appends_ret|].
  apply appends_bind; [apply GetPathwayDistance_appends|]. intros d.
  appends_tac.
Qed.

Lemma ValidateAfterAdd_appends self : appends (ValidateAfterAdd self).
Proof.
  unfold ValidateAfterAdd.
  apply appends_bind; [apply ValidateFromStopIdIsValid_appends|]. intros r1.
  apply appends_bind; [apply ValidateToStopIdIsValid_appends|]. intros r2.
  destruct (r2 && (r1 && true)); [|apply appends_ret].
  apply appends_bind; [apply ValidatePathwayDistance_appends|]. intros _.
  apply ValidatePathwayWalkingTime_appends.
Qed.

Lemma ValidateBeforeAdd_appends self : appends (ValidateBeforeAdd self).
Proof.
  unfold ValidateBeforeAdd.
  apply appends_bind; [apply ValidateFromStopIdIsPresent_appends|]. intros r1.
  apply appends_bind; [apply ValidateToStopIdIsPresent_appends|]. intros r2.
  apply appends_bind; [apply ValidatePathwayMode_appends|]. intros r3.
  apply appends_bind; [apply ValidateMinimumPathwayTime_appends|]. intros r4.
  apply appends_ret.
Qed.

End WholeValidate.

Lemma ValidatePathwayWalkingTime_monotone_witness :
  snd (ValidatePathwayWalkingTime (H := sample_util)
         (pathway_A_B (Some (stops_apart 500)) (VInt 2) (VInt 600)) []) = [].
Proof.
  apply (ValidatePathwayWalkingTime_monotone (H := sample_util)
           (pathway_A_B (Some (stops_apart 500)) (VInt 2) (VInt 130))
           (pathway_A_B (Some (stops_apart 500)) (VInt 2) (VInt 600))
           {| stop_lat := 0; stop_lon := 0 |}
           {| stop_lat := 500 # 111195; stop_lon := 0 |} 130 600 []).
  - vm_compute. reflexivity.
  - vm_compute. reflexivity.
  - vm_compute. reflexivity.
  - reflexivity.
  - vm_compute. reflexivity.
  - lia.
  - vm_compute. reflexivity.
Defined.

Section SilentValidate.
Context `{Util}.

(* What the two plausibility checks report between the resolved stops. *)
Local Abbreviation distance_problems self d :=
  (if Qltb (10000 # 1) d then
     [PathwayDistanceTooBig (from_stop_id self) (to_stop_id self) d TYPE_ERROR]
   else if Qltb (2000 # 1) d then
     [PathwayDistanceTooBig (from_stop_id self) (to_stop_id self) d TYPE_WARNING]
   else []).

Local Abbreviation walking_problems self d :=
  (if IsEmpty (traversal_time self) then []
   else match traversal_time self with
        | VInt t =>
            if Qltb (inject_Z (t + 120)) (d / FAST_WALKING_SPEED)
            then [PathwayWalkingSpeedTooFast (from_stop_id self)
                    (to_stop_id self) (VInt t) d]
            else []
        | _ => []
        end).

Lemma ValidateAfterAdd_resolved self a b problems :
  resolved_stops self = Some (a, b) ->
  (IsEmpty (traversal_time self) = true
   \/ exists t, traversal_time self = VInt t /\ 0 <= t) ->
  let d := ApproximateDistanceBetweenStops a b in
  ValidateAfterAdd self problems
  = (Ok tt, problems ++ distance_problems self d ++ walking_problems self d).
Proof.
  intros Hr Htime d.
  destruct (resolved_stops_Some _ _ _ Hr) as (schedule & Hs & Ha & Hb).
  rewrite (ValidateAfterAdd_run _ _ _ Hs), Ha, Hb.
  unfold bind. rewrite (ValidatePathwayDistance_resolved self a b problems Hr).
  fold d. rewrite app_assoc.
  destruct (IsEmpty (traversal_time self)) eqn:He.
  - unfold ValidatePathwayWalkingTime. rewrite He. unfold ret.
    by rewrite app_nil_r.
  - destruct Htime as [Habs | (t & Ht & Hpos)]; [discriminate Habs|].
    rewrite Ht in He.
    rewrite (ValidatePathwayWalkingTime_run self a b t _ Hr Ht He Hpos).
    fold d. by rewrite Ht.
Qed.

Lemma ValidateAfterAdd_unresolved self schedule problems :
  _schedule self = Some schedule ->
  resolved_stops self = None ->
  snd (ValidateAfterAdd self problems) <> problems.
Proof.
  intros Hs Hr. rewrite (ValidateAfterAdd_run _ _ _ Hs).
  unfold resolved_stops in Hr. rewrite Hs in Hr.
  destruct (stops_get (stops schedule) (from_stop_id self)) as [a|];
    destruct (stops_get (stops schedule) (to_stop_id self)) as [b|];
    try discriminate Hr; simpl; rewrite reports_unchanged; discriminate.
Qed.

Lemma distance_problems_nil self (d : Q) :
  distance_problems self d = [] <-> ~ (2000 # 1 < d)%Q.
Proof.
  destruct (Qltb (10000 # 1) d) eqn:E1.
  - split; [discriminate|]. intros Hn. exfalso. apply Hn.
    apply Qltb_lt in E1. eapply Qlt_trans; [|exact E1]. reflexivity.
  - destruct (Qltb (2000 # 1) d) eqn:E2.
    + split; [discriminate|]. intros Hn. exfalso. apply Hn. by apply Qltb_lt.
    + split; [|done]. intros _. by apply Qltb_ge.
Qed.

Lemma walking_problems_nil self (d : Q) :
  (IsEmpty (traversal_time self) = true
   \/ exists t, traversal_time self = VInt t) ->
  walking_problems self d = []
  <-> IsEmpty (traversal_time self) = true
      \/ exists t, traversal_time self = VInt t
           /\ ~ (inject_Z (t + 120) < d / (2 # 1))%Q.
Proof.
  intros Htime. change FAST_WALKING_SPEED with (2 # 1).
  destruct (IsEmpty (traversal_time self)); [split; auto|].
  destruct Htime as [Habs | (t & Ht)]; [discriminate Habs|]. rewrite Ht.
  destruct (Qltb (inject_Z (t + 120)) (d / (2 # 1))) eqn:E.
  - split; [discriminate|]. intros [Habs | (t' & [= <-] & Hn)]; [done|].
    exfalso. apply Hn. by apply Qltb_lt.
  - split; [|done]. intros _. right. exists t. split; [done|]. by apply Qltb_ge.
Qed.

(** X8: [Validate] reports nothing exactly when the record passes the
    pre-registration phase silently (both stop ids non-empty; mode empty or
    an integer from 1 to 7; time empty, or mode 2 and [0 <= t < 3*3600]) and
    either is not attached, or both stops resolve, they are at most 2000 m
    apart, and the time is empty or satisfies [t + 120 >= d / 2]. *)
Theorem Validate_silent self problems :
  snd (Validate self problems) = problems
  <-> (IsEmpty (from_stop_id self) = false
       /\ IsEmpty (to_stop_id self) = false
       /\ (IsEmpty (pathway_mode self) = true
           \/ exists z, pathway_mode self = VInt z /\ 1 <= z <= 7)
       /\ (IsEmpty (traversal_time self) = true
           \/ pathway_mode self = VInt 2
              /\ exists t, traversal_time self = VInt t /\ 0 <= t < 3 * 3600))
      /\ (_schedule self = None
          \/ exists a b,
               resolved_stops self = Some (a, b)
               /\ ~ (2000 # 1 < ApproximateDistanceBetweenStops a b)%Q
               /\ (IsEmpty (traversal_time self) = true
                   \/ exists t, traversal_time self = VInt t
                        /\ ~ (inject_Z (t + 120)
                              < ApproximateDistanceBetweenStops a b / (2 # 1))%Q)).
Proof.
  rewrite <- before_add_problems_nil.
  pose proof (ValidateBeforeAdd_run self problems) as Hrun.
  pose proof (before_add_result_true self) as Hok.
  pose proof (before_add_problems_nil self) as Hnil.
  unfold Validate. rewrite (bind_Ok _ _ _ _ _ Hrun). clear Hrun.
  match goal with
  | |- context [problems ++ ?l] => set (pre := l) in *
  end.
  match type of Hok with
  | ?b = true <-> _ => set (ok := b) in *
  end.
  assert (Hsilent_ok : pre = [] -> ok = true).
  { intros Hpre. apply Hnil in Hpre as (H1 & H2 & H3 & H4).
    apply Hok. repeat split; try done.
    destruct H4 as [?|[_ (t & ? & _)]]; [by left | right; by exists t]. }
  assert (Htime : pre = [] ->
            IsEmpty (traversal_time self) = true
            \/ exists t, traversal_time self = VInt t /\ 0 <= t).
  { intros Hpre. apply Hnil in Hpre as (_ & _ & _ & H4).
    destruct H4 as [?|[_ (t & ? & ? & _)]]; [by left | right; by exists t]. }
  unfold attached.
  destruct (_schedule self) as [schedule|] eqn:Hs; simpl.
  - destruct ok eqn:Eok; simpl.
    + destruct (resolved_stops self) as [[a b]|] eqn:Hr.
      * split.
        -- intros Hsil.
           assert (Hpre : pre = []).
           { rewrite (ValidateAfterAdd_appends self (problems ++ pre)) in Hsil.
             simpl in Hsil. rewrite <- app_assoc in Hsil.
             apply reports_unchanged in Hsil. by apply app_nil in Hsil as [? _]. }
           split; [exact Hpre|]. right. exists a, b. split; [done|].
           rewrite (ValidateAfterAdd_resolved self a b _ Hr (Htime Hpre)) in Hsil.
           simpl in Hsil. rewrite Hpre, app_nil_r in Hsil.
           apply reports_unchanged in Hsil. apply app_nil in Hsil as [Hd Hw].
           split; [by apply distance_problems_nil in Hd|].
           apply walking_problems_nil in Hw; [exact Hw|].
           destruct (Htime Hpre) as [?|(t & ? & _)]; [by left | right; by exists t].
        -- intros [Hpre [Habs | (a' & b' & [= <- <-] & Hd & Hw)]]; [done|].
           rewrite (ValidateAfterAdd_resolved self a b _ Hr (Htime Hpre)).
           simpl. rewrite Hpre, app_nil_r. apply reports_unchanged.
           apply app_nil. split; [by apply distance_problems_nil|].
           apply walking_problems_nil; [|exact Hw].
           destruct (Htime Hpre) as [?|(t & ? & _)]; [by left | right; by exists t].
      * split.
        -- intros Hsil. exfalso.
           assert (Hpre : pre = []).
           { rewrite (ValidateAfterAdd_appends self (problems ++ pre)) in Hsil.
             simpl in Hsil. rewrite <- app_assoc in Hsil.
             apply reports_unchanged in Hsil. by apply app_nil in Hsil as [? _]. }
           rewrite Hpre, app_nil_r in Hsil.
           by apply (ValidateAfterAdd_unresolved self schedule problems Hs Hr).
        -- intros [_ [Habs | (a & b & Habs & _)]]; done.
    + unfold ret. simpl. rewrite reports_unchanged. split.
      * intros Hpre. apply Hsilent_ok in Hpre. discriminate Hpre.
      * intros [Hpre _]. apply Hsilent_ok in Hpre. discriminate Hpre.
  - rewrite andb_false_r. unfold ret. simpl. rewrite reports_unchanged.
    split; [intros Hpre; split; [done | by left] | by intros [? _]].
Qed.

End SilentValidate.

Lemma Validate_silent_witness :
  snd (Validate (H := sample_util)
         (pathway_A_B (Some (stops_apart 500)) (VInt 2) (VInt 300)) []) = [].
Proof.
  apply (proj2 (Validate_silent (H := sample_util)
                  (pathway_A_B (Some (stops_apart 500)) (VInt 2) (VInt 300)) [])).
  split.
  - repeat split; try (vm_compute; reflexivity).
    + right. exists 2. split; [vm_compute; reflexivity | lia].
    + right. split; [vm_compute; reflexivity|].
      exists 300. split; [vm_compute; reflexivity | lia].
  - right. exists {| stop_lat := 0; stop_lon := 0 |},
                  {| stop_lat := 500 # 111195; stop_lon := 0 |}.
    split; [vm_compute; reflexivity|]. split.
    + vm_compute. intros Hlt. discriminate Hlt.
    + right. exists 300. split; [vm_compute; reflexivity|].
      vm_compute. intros Hlt. discriminate Hlt.
Defined.

(** ** More on construction *)

Lemma hasattr_setattr_ne self name name' v :
  name <> name' -> hasattr (setattr self name v) name' = hasattr self name'.
Proof. intros Hne. unfold hasattr, setattr. simpl. by rewrite lookup_insert_ne. Qed.

Section MoreConstruction.
Context `{Util}.

Lemma normalize_pathway_mode_other self self' name :
  normalize_pathway_mode self = Ok self' ->
  name <> "pathway_mode" ->
  getattr self' name = getattr self name
  /\ hasattr self' name = hasattr self name.
Proof.
  unfold normalize_pathway_mode. intros Hn Hne.
  destruct (py_in _ _).
  - injection Hn as <-.
    by rewrite getattr_setattr_ne, hasattr_setattr_ne.
  - destruct (NonNegIntStringToInt (pathway_mode self)) as [z|e].
    + simpl in Hn. injection Hn as <-.
      by rewrite getattr_setattr_ne, hasattr_setattr_ne.
    + apply try_except_Ok in Hn as [Hm | [_ ->]]; [discriminate Hm | done].
Qed.

Lemma normalize_traversal_time_other self self' name :
  normalize_traversal_time self = Ok self' ->
  name <> "traversal_time" ->
  getattr self' name = getattr self name.
Proof.
  unfold normalize_traversal_time. intros Hn Hne.
  destruct (hasattr self "traversal_time").
  - destruct (NonNegIntStringToInt (traversal_time self)) as [z|e].
    + simpl in Hn. injection Hn as <-. by rewrite getattr_setattr_ne.
    + apply try_except_Ok in Hn as [Hm | [_ ->]]; [discriminate Hm | done].
  - injection Hn as <-. by rewrite getattr_setattr_ne.
Qed.

Lemma normalize_traversal_time_time self self' :
  normalize_traversal_time self = Ok self' ->
  traversal_time self'
  = if hasattr self "traversal_time" then
      match NonNegIntStringToInt (traversal_time self) with
      | Ok z => VInt z
      | Raise _ => traversal_time self
      end
    else VNone.
Proof.
  unfold normalize_traversal_time, traversal_time. intros Hn.
  destruct (hasattr self "traversal_time").
  - destruct (NonNegIntStringToInt (getattr self "traversal_time")) as [z|e].
    + simpl in Hn. injection Hn as <-. by rewrite getattr_setattr_eq.
    + apply try_except_Ok in Hn as [Hm | [_ ->]]; [discriminate Hm | done].
  - injection Hn as <-. by rewrite getattr_setattr_eq.
Qed.

Lemma init_steps schedule pid from to mode bidi time field_dict self calls :
  __init__ schedule pid from to mode bidi time field_dict = Ok (self, calls) ->
  exists self1,
    normalize_pathway_mode
      (assign_fields pid from to mode bidi time field_dict) = Ok self1
    /\ normalize_traversal_time self1 = Ok self.
Proof.
  unfold __init__.
  destruct (normalize_pathway_mode _) as [self1|e]; [|done].
  destruct (normalize_traversal_time self1) as [self2|e] eqn:H2; [|done].
  intros Hinit. exists self1. split; [done|].
  destruct schedule; congruence.
Qed.

Lemma hasattr_traversal_time self : hasattr self "traversal_time" = true.
Proof. unfold hasattr. apply orb_true_iff. right. reflexivity. Qed.

(** X9: the constructor gives [traversal_time] to the non-negative-integer
    parse as it was given, [None] when a field mapping has no such key: the
    record holds the parsed integer, and the given value itself when the
    parse fails.  Unlike the mode, an empty string is not replaced by a
    default. *)
Theorem init_normalizes_traversal_time
    schedule pid from to mode bidi time field_dict self calls :
  __init__ schedule pid from to mode bidi time field_dict = Ok (self, calls) ->
  let given :=
    traversal_time (assign_fields pid from to mode bidi time field_dict) in
  (field_dict = None \/ field_dict = Some ∅ -> given = time)
  /\ (forall d, field_dict = Some d -> d <> ∅ ->
      given = default VNone (d !! "traversal_time"))
  /\ match NonNegIntStringToInt given with
     | Ok z => traversal_time self = VInt z
     | Raise _ => traversal_time self = given
     end.
Proof.
  intros Hinit given.
  destruct (init_steps _ _ _ _ _ _ _ _ _ _ Hinit) as (self1 & H1 & H2).
  pose proof (normalize_pathway_mode_other _ _ "traversal_time" H1
                ltac:(done)) as [Hg _].
  pose proof (normalize_traversal_time_time _ _ H2) as Ht.
  rewrite hasattr_traversal_time in Ht.
  unfold traversal_time in Ht at 2 3. rewrite Hg in Ht.
  fold (traversal_time (assign_fields pid from to mode bidi time field_dict)) in Ht.
  fold given in Ht.
  split; [|split].
  - assert (Hexplicit : forall self0,
      traversal_time
        (setattr (setattr (setattr (setattr (setattr (setattr self0
          "pathway_id" pid) "from_stop_id" from) "to_stop_id" to)
          "pathway_mode" mode) "traversal_time" time)
          "is_bidirectional" bidi) = time).
    { intros self0. unfold traversal_time.
      rewrite getattr_setattr_ne by done. apply getattr_setattr_eq. }
    subst given. intros [-> | ->]; unfold assign_fields; [apply Hexplicit|].
    rewrite bool_decide_eq_true_2 by done. apply Hexplicit.
  - intros d -> Hd. subst given. unfold assign_fields.
    rewrite bool_decide_eq_false_2 by done.
    unfold traversal_time, getattr. simpl. by rewrite (right_id_L ∅ (∪)).
  - by destruct (NonNegIntStringToInt given).
Qed.

(** X10: the constructor coerces nothing but [pathway_mode] and
    [traversal_time]: every other field of the table reads as it was given,
    in the field mapping or in the explicit arguments. *)
Theorem init_keeps_other_fields
    schedule pid from to mode bidi time field_dict self calls :
  __init__ schedule pid from to mode bidi time field_dict = Ok (self, calls) ->
  (forall d name, field_dict = Some d -> d <> ∅ ->
     name ∈ _FIELD_NAMES ->
     name <> "pathway_mode" -> name <> "traversal_time" ->
     getattr self name = default VNone (d !! name))
  /\ (field_dict = None \/ field_dict = Some ∅ ->
      pathway_id self = pid /\ from_stop_id self = from
      /\ to_stop_id self = to /\ is_bidirectional self = bidi).
Proof.
  intros Hinit.
  destruct (init_steps _ _ _ _ _ _ _ _ _ _ Hinit) as (self1 & H1 & H2).
  assert (Hkeep : forall name, name <> "pathway_mode" -> name <> "traversal_time" ->
     getattr self name
     = getattr (assign_fields pid from to mode bidi time field_dict) name).
  { intros name Hm Ht.
    rewrite (normalize_traversal_time_other _ _ name H2 Ht).
    by destruct (normalize_pathway_mode_other _ _ name H1 Hm). }
  split.
  - intros d name -> Hd _ Hm Ht. rewrite (Hkeep name Hm Ht).
    unfold assign_fields. rewrite bool_decide_eq_false_2 by done.
    unfold getattr. simpl. by rewrite (right_id_L ∅ (∪)).
  - intros Hexp.
    assert (Hfields : assign_fields pid from to mode bidi time field_dict
      = setattr (setattr (setattr (setattr (setattr (setattr
          {| _schedule := None; __dict__ := ∅ |}
          "pathway_id" pid) "from_stop_id" from) "to_stop_id" to)
          "pathway_mode" mode) "traversal_time" time)
          "is_bidirectional" bidi).
    { unfold assign_fields. destruct Hexp as [-> | ->]; [done|].
      by rewrite bool_decide_eq_true_2. }
    unfold pathway_id, from_stop_id, to_stop_id, is_bidirectional.
    rewrite !Hkeep by done. rewrite Hfields.
    repeat split;
      rewrite ?getattr_setattr_ne by done; apply getattr_setattr_eq.
Qed.

End MoreConstruction.

Lemma init_normalizes_traversal_time_witness :
  traversal_time (constructed_A_B (VInt 2)) = VNone.
Proof.
  refine ((fun thm => eq_trans (proj2 (proj2 thm)) (proj1 thm (or_introl eq_refl)))
          (init_normalizes_traversal_time (H := sample_util) None
             (VStr "p1") (VStr "A") (VStr "B") (VInt 2) VNone VNone None
             (constructed_A_B (VInt 2)) [] _)).
  vm_compute. reflexivity.
Defined.

Lemma init_keeps_other_fields_witness :
  pathway_id (constructed_A_B (VInt 2)) = VStr "p1"
  /\ from_stop_id (constructed_A_B (VInt 2)) = VStr "A"
  /\ to_stop_id (constructed_A_B (VInt 2)) = VStr "B"
  /\ is_bidirectional (constructed_A_B (VInt 2)) = VNone.
Proof.
  refine (proj2 (init_keeps_other_fields (H := sample_util)
            (Some (stops_apart 500))
            (VStr "p1") (VStr "A") (VStr "B") (VInt 2) VNone VNone None
            (constructed_A_B (VInt 2))
            [AddPathwayObject (stops_apart 500) (constructed_A_B (VInt 2)) None]
            _) (or_introl eq_refl)).
  vm_compute. reflexivity.
Defined.

Section ConstructionPaths.
Context `{Util}.

(** X11: a field mapping that is not empty takes over completely: the
    explicit field arguments are ignored.  An empty field mapping counts as
    none: the record is built from the explicit arguments. *)
Theorem init_field_dict_precedence
    schedule pid from to mode bidi time pid' from' to' mode' bidi' time' d :
  (d <> ∅ ->
   __init__ schedule pid from to mode bidi time (Some d)
   = __init__ schedule pid' from' to' mode' bidi' time' (Some d))
  /\ __init__ schedule pid from to mode bidi time (Some ∅)
     = __init__ schedule pid from to mode bidi time None.
Proof.
  split.
  - intros Hd. unfold __init__, assign_fields.
    by rewrite bool_decide_eq_false_2.
  - unfold __init__, assign_fields. by rewrite bool_decide_eq_true_2.
Qed.

(** X12: the two ways to construct agree: building from the explicit fields
    is building from the field mapping that holds exactly these six
    fields. *)
Theorem init_explicit_is_field_dict
    schedule pid from to mode bidi time :
  __init__ schedule pid from to mode bidi time None
  = __init__ schedule VNone VNone VNone VNone VNone VNone
      (Some (<["is_bidirectional" := bidi]>
            (<["traversal_time" := time]>
            (<["pathway_mode" := mode]>
            (<["to_stop_id" := to]>
            (<["from_stop_id" := from]>
            (<["pathway_id" := pid]> ∅))))))).
Proof.
  unfold __init__, assign_fields.
  rewrite bool_decide_eq_false_2 by apply insert_non_empty.
  unfold setattr. simpl. by rewrite (right_id_L ∅ (∪)).
Qed.

(** X13: a record constructed without a mode (absent, [None] or the empty
    string) passes [ValidatePathwayMode] silently, and
    [ValidateMinimumPathwayTime] never reports
    MinimumPathwayTimeSetWithInvalidPathwayMode for it. *)
Theorem init_default_mode_is_valid
    schedule pid from to mode bidi time field_dict self calls problems :
  __init__ schedule pid from to mode bidi time field_dict = Ok (self, calls) ->
  (let given :=
     getattr (assign_fields pid from to mode bidi time field_dict) "pathway_mode" in
   given = VNone \/ given = VStr "") ->
  ValidatePathwayMode self problems = (Ok true, problems)
  /\ forall m,
       ~ In (MinimumPathwayTimeSetWithInvalidPathwayMode m)
            (reports_of (ValidateMinimumPathwayTime self)).
Proof.
  intros Hinit Hblank. simpl in Hblank. apply py_in_blank in Hblank.
  apply init_Ok in Hinit as (Hm & _). rewrite Hblank in Hm.
  split.
  - rewrite ValidatePathwayMode_run, Hm.
    change (py_in_range (VInt 2) 1 8) with true.
    by rewrite orb_true_r, app_nil_r.
  - intros m. unfold reports_of.
    rewrite ValidateMinimumPathwayTime_run, Hm. simpl.
    destruct (IsEmpty (traversal_time self)); [intros []|].
    destruct (traversal_time self) as [|s|t]; simpl.
    + intros [Habs|[]]. discriminate Habs.
    + intros [Habs|[]]. discriminate Habs.
    + destruct (t <? 0); [intros [Habs|[]]; discriminate Habs|].
      destruct (t >=? 24 * 3600); [intros [Habs|[]]; discriminate Habs|].
      destruct (t >=? 3 * 3600); [intros [Habs|[]]; discriminate Habs|].
      intros [].
Qed.

End ConstructionPaths.

Lemma init_default_mode_is_valid_witness :
  ValidatePathwayMode (H := sample_util) (constructed_A_B (VInt 2)) []
  = (Ok true, []).
Proof.
  refine (proj1 (init_default_mode_is_valid (H := sample_util) None
            (VStr "p1") (VStr "A") (VStr "B") (VStr "") VNone VNone None
            (constructed_A_B (VInt 2)) [] [] _ _)).
  - vm_compute. reflexivity.
  - right. vm_compute. reflexivity.
Defined.

(** ** Construction followed by validation *)

Section ConstructThenValidate.
Context `{Util}.

Lemma init_traversal_time schedule pid from to mode bidi time field_dict self calls :
  __init__ schedule pid from to mode bidi time field_dict = Ok (self, calls) ->
  let fields := assign_fields pid from to mode bidi time field_dict in
  traversal_time self
  = if hasattr fields "traversal_time" then
      match NonNegIntStringToInt (traversal_time fields) with
      | Ok z => VInt z
      | Raise _ => traversal_time fields
      end
    else VNone.
Proof.
  intros Hinit fields.
  destruct (init_steps _ _ _ _ _ _ _ _ _ _ Hinit) as (self1 & H1 & H2).
  fold fields in H1.
  pose proof (normalize_pathway_mode_other _ _ "traversal_time" H1
                ltac:(done)) as [Hg Hh].
  rewrite (normalize_traversal_time_time _ _ H2), Hh.
  unfold traversal_time. by rewrite Hg.
Qed.

(** X14: a traversal time that the parse rejects and that is neither empty
    nor an integer stays in the constructed record as it was given, and it
    blocks validation however the registry attaches the record:
    [ValidateBeforeAdd] reports it as InvalidValue and fails, and [Validate]
    stops there, without the post-registration phase. *)
Theorem init_unparsed_time_blocks_validation
    schedule pid from to mode bidi time field_dict self calls e owner problems :
  __init__ schedule pid from to mode bidi time field_dict = Ok (self, calls) ->
  let fields := assign_fields pid from to mode bidi time field_dict in
  hasattr fields "traversal_time" = true ->
  NonNegIntStringToInt (traversal_time fields) = Raise e ->
  IsEmpty (traversal_time fields) = false ->
  isinstance_int (traversal_time fields) = false ->
  let registered := {| _schedule := owner; __dict__ := __dict__ self |} in
  traversal_time registered = traversal_time fields
  /\ fst (ValidateBeforeAdd registered problems) = Ok false
  /\ In (InvalidValue "traversal_time" (traversal_time fields)
           (Some "If present, this field should contain an integer value.")
           TYPE_ERROR)
        (snd (ValidateBeforeAdd registered problems))
  /\ Validate registered problems
     = (Ok tt, snd (ValidateBeforeAdd registered problems)).
Proof.
  intros Hinit fields Hh Hparse He Hint registered.
  assert (Ht : traversal_time registered = traversal_time fields).
  { change (traversal_time registered) with (traversal_time self).
    rewrite (init_traversal_time _ _ _ _ _ _ _ _ _ _ Hinit).
    fold fields. by rewrite Hh, Hparse. }
  split; [exact Ht|].
  pose proof (ValidateBeforeAdd_run registered problems) as Hrun.
  rewrite Ht, He, Hint in Hrun. rewrite !andb_false_r in Hrun.
  split; [by rewrite Hrun|]. split.
  - rewrite Hrun. simpl. rewrite !in_app_iff. do 4 right.
    destruct (traversal_time fields) as [|s|t]; [| |discriminate Hint];
      right; by left.
  - unfold Validate. rewrite (bind_Ok _ _ _ _ _ Hrun). by rewrite Hrun.
Qed.

End ConstructThenValidate.

Lemma init_unparsed_time_blocks_validation_witness :
  Validate (H := sample_util)
    {| _schedule := Some (stops_apart 5001);
       __dict__ := __dict__ (setattr (constructed_A_B (VInt 2))
                               "traversal_time" (VStr "abc")) |} []
  = (Ok tt,
     [InvalidValue "traversal_time" (VStr "abc")
        (Some "If present, this field should contain an integer value.")
        TYPE_ERROR]).
Proof.
  refine (proj2 (proj2 (proj2
            (init_unparsed_time_blocks_validation (H := sample_util) None
               (VStr "p1") (VStr "A") (VStr "B") (VInt 2) VNone (VStr "abc") None
               (setattr (constructed_A_B (VInt 2)) "traversal_time" (VStr "abc"))
               [] ValueError (Some (stops_apart 5001)) [] _ _ _ _ _)))).
  all: vm_compute; reflexivity.
Defined.

(** ** How much one call can report *)

Section ReportBound.
Context `{Util}.

Lemma ValidateAfterAdd_reports_bound self :
  (length (reports_of (ValidateAfterAdd self)) <= 2)%nat.
Proof.
  unfold reports_of.
  destruct (_schedule self) as [schedule|] eqn:Hs.
  - rewrite (ValidateAfterAdd_run _ _ _ Hs).
    destruct (stops_get (stops schedule) (from_stop_id self)) as [a|] eqn:Ha;
      destruct (stops_get (stops schedule) (to_stop_id self)) as [b|] eqn:Hb;
      try (simpl; lia).
    assert (Hr : resolved_stops self = Some (a, b)).
    { unfold resolved_stops. by rewrite Hs, Ha, Hb. }
    unfold bind. rewrite (ValidatePathwayDistance_resolved _ _ _ _ Hr).
    rewrite (ValidatePathwayWalkingTime_appends self). simpl.
    rewrite length_app.
    assert (Hd : forall x y : list problem,
              (length (if Qltb (10000 # 1) (ApproximateDistanceBetweenStops a b)
                       then [PathwayDistanceTooBig (from_stop_id self)
                               (to_stop_id self)
                               (ApproximateDistanceBetweenStops a b) TYPE_ERROR]
                       else if Qltb (2000 # 1) (ApproximateDistanceBetweenStops a b)
                       then [PathwayDistanceTooBig (from_stop_id self)
                               (to_stop_id self)
                               (ApproximateDistanceBetweenStops a b) TYPE_WARNING]
                       else []) <= 1)%nat).
    { intros _ _. destruct (Qltb (10000 # 1) _); [simpl; lia|].
      destruct (Qltb (2000 # 1) _); simpl; lia. }
    specialize (Hd [] []).
    assert (Hw : (length (reports_of (ValidatePathwayWalkingTime self)) <= 1)%nat).
    { unfold reports_of, ValidatePathwayWalkingTime.
      destruct (IsEmpty _); [simpl; lia|].
      destruct (traversal_time self) as [|s|t]; try (simpl; lia).
      unfold bind at 1. unfold lift at 1. simpl.
      destruct (t <? 0); [simpl; lia|].
      rewrite (bind_Ok _ _ _ _ _ (GetPathwayDistance_resolved _ _ _ _ Hr)).
      unfold bind, lift. simpl.
      destruct (Qltb (inject_Z (t + 120)) _); simpl; lia. }
    lia.
  - unfold ValidateAfterAdd, ValidateFromStopIdIsValid, schedule_stops, bind.
    rewrite Hs. simpl. lia.
Qed.

(** X15: one call of [Validate] adds at most five problems to the reporter,
    and at most four when the pre-registration phase succeeds. *)
Theorem Validate_reports_at_most_five self problems :
  (length (snd (Validate self problems)) <= length problems + 5)%nat
  /\ (fst (ValidateBeforeAdd self problems) = Ok true ->
      (length (snd (Validate self problems)) <= length problems + 4)%nat).
Proof.
  pose proof (ValidateBeforeAdd_run self problems) as Hrun.
  pose proof (ValidateAfterAdd_reports_bound self) as Hpost.
  unfold Validate. rewrite (bind_Ok _ _ _ _ _ Hrun). rewrite Hrun. simpl.
  clear Hrun.
  pose proof (before_add_result_true self) as Hok.
  match type of Hok with
  | ?b = true <-> _ => set (ok := b) in *
  end.
  clear Hok.
  match goal with
  | |- context [problems ++ ?l] => set (pre := l) in *
  end.
  assert (Hpre : (length pre <= 5)%nat /\ (ok = true -> length pre <= 2)%nat).
  { subst pre ok. rewrite !length_app.
    destruct (IsEmpty (from_stop_id self)), (IsEmpty (to_stop_id self)),
      (IsEmpty (pathway_mode self) || py_in_range (pathway_mode self) 1 8),
      (IsEmpty (traversal_time self)); simpl;
      try (split; [lia | intros; (discriminate || lia)]);
      rewrite !length_app;
      destruct (py_eq (pathway_mode self) (VInt 2));
      destruct (traversal_time self) as [|s|t]; simpl;
      try (split; [lia | intros; (discriminate || lia)]);
      destruct (t <? 0), (t >=? 24 * 3600), (t >=? 3 * 3600); simpl;
      split; intros; (discriminate || lia). }
  destruct Hpre as [Hpre5 Hpre2].
  destruct (ok && attached self) eqn:E.
  - apply andb_true_iff in E as [Eok _]. specialize (Hpre2 Eok).
    rewrite (ValidateAfterAdd_appends self (problems ++ pre)). simpl.
    rewrite !length_app. split; [lia | intros _; lia].
  - unfold ret. simpl. rewrite length_app. split; [lia|].
    intros [= Eok]. specialize (Hpre2 Eok). lia.
Qed.

End ReportBound.

Lemma Validate_reports_at_most_five_witness :
  (length (snd (Validate (H := sample_util)
                  (pathway_A_B (Some (stops_apart 5001)) (VInt 1) (VInt (-5)))
                  [])) <= 4)%nat.
Proof.
  refine (proj2 (Validate_reports_at_most_five (H := sample_util)
            (pathway_A_B (Some (stops_apart 5001)) (VInt 1) (VInt (-5))) []) _).
  vm_compute. reflexivity.
Defined.

Lemma init_field_dict_precedence_witness :
  __init__ (H := sample_util) None (VStr "p1") (VStr "A") (VStr "B") (VInt 2)
    VNone VNone (Some (<["pathway_id" := VStr "p9"]> ∅))
  = __init__ (H := sample_util) None VNone VNone VNone VNone VNone VNone
      (Some (<["pathway_id" := VStr "p9"]> ∅)).
Proof.
  refine (proj1 (init_field_dict_precedence (H := sample_util) None
            (VStr "p1") (VStr "A") (VStr "B") (VInt 2) VNone VNone
            VNone VNone VNone VNone VNone VNone
            (<["pathway_id" := VStr "p9"]> ∅)) _).
  apply insert_non_empty.
Defined.

(** The bound of five is reached. *)
Example Validate_five_problems :
  length (snd (Validate (H := sample_util) pathway_all_wrong [])) = 5%nat.
Proof. vm_compute. reflexivity. Qed.
